(** * RTSP describe-and-stream client: a shallow embedding of [main]

    The repository holds two variants of one Go program:
    - [src/main.go]: parse the URL, connect, DESCRIBE, print the session
      description as JSON, SETUP every media, register a packet callback,
      PLAY, and block forever;
    - [src/unnamed/part_000]: the same program cut after the description
      has been printed.

    Everything the program does is a sequence of calls into gortsplib,
    encoding/json and log.  The embedding keeps that shape: the outcome of
    every library call is read from a [World] (one field per call), the
    program is written in a small state-and-stop monad [Prog] over the
    process state [Proc], and what the process did is the [trace] it
    leaves behind: its log lines and its network calls, in order.

    Conventions.
    - An [error] is its [Error()] text; a pair [(value, err)] returned by a
      library call is a sum ([inl value] when [err == nil]).
    - A log line is recorded without the date/time header the standard
      logger puts in front of it; every line carries the source statement
      that wrote it ([LogSite]).
    - The library calls the packet callback from its own goroutine.  In
      [run] one invocation is taken as one atomic step, and packets can
      reach the callback at two places: once PLAY has been issued, before
      [main] goes on ([arrivals_during_play]), and while [main] is parked
      in [select {}] ([arrivals_while_parked]).  [concurrent_log] drops
      that simplification: it describes the logs in which the lines of
      the invocations interleave with each other and with [main]. *)

From Stdlib Require Import Ascii.
From stdpp Require Import gmap strings list pretty sorting.

Local Open Scope Z_scope.
Local Open Scope string_scope.
Local Open Scope list_scope.

(** ** Go runtime: strings, [fmt] and errors *)

Module Go.

(** The newline character, ["\n"]. *)
Definition nl : string := String "010"%char "".

(** [error]: the text its [Error()] method returns. *)
Record error := mkError { Error : string }.

(** [len(s) > 0 && s[len(s)-1] == '\n'], the test [log.Output] makes. *)
Fixpoint ends_with_newline (s : string) : bool :=
  match s with
  | "" => false
  | String c "" => bool_decide (c = "010"%char)
  | String _ rest => ends_with_newline rest
  end.

(** What [log.Output] writes for the message [s]: [s] itself when it
    ends in a newline, [s] and a newline otherwise. *)
Definition terminated (s : string) : string :=
  if ends_with_newline s then s else s +:+ nl.

(** Operands separated by one space. *)
Fixpoint spaced (operands : list string) : string :=
  match operands with
  | [] => ""
  | [a] => a
  | a :: rest => a +:+ " " +:+ spaced rest
  end.

(** [fmt.Sprintln]: a space between operands, always, and a newline. *)
Definition Sprintln (operands : list string) : string :=
  spaced operands +:+ nl.

(** [time.Duration] counts nanoseconds. *)
Definition Second : Z := 1000000000.

End Go.
Export Go.

(** ** Library data the program touches *)

(** [base.URL]: the fields [main] reads, and the rest of the address. *)
Record URL := mkURL { Scheme : string; Host : string; Path : string }.

(** [format.Format]: identified by its payload type. *)
Record Format := mkFormat { FormatPayloadType : Z }.

(** [description.Media]. *)
Record Media := mkMedia { MediaType : string; Formats : list Format }.

(** [description.Session]. *)
Record Session := mkSession {
  BaseURL : URL;
  Title : string;
  Medias : list Media
}.

(** [rtp.Extension]: both fields are unexported. *)
Record Extension := mkExtension { ext_id : Z; ext_payload : list Z }.

(** [rtp.Packet]: the embedded [rtp.Header] and the payload. *)
Record Packet := mkPacket {
  Version : Z;                   (* uint8 *)
  Padding : bool;
  Extension_ : bool;             (* field [Extension] *)
  Marker : bool;
  PayloadType : Z;               (* uint8 *)
  SequenceNumber : Z;            (* uint16 *)
  Timestamp : Z;                 (* uint32 *)
  SSRC : Z;                      (* uint32 *)
  CSRC : list Z;                 (* []uint32 *)
  ExtensionProfile : Z;          (* uint16 *)
  Extensions : list Extension;   (* []rtp.Extension *)
  Payload : list Z               (* []byte *)
}.

(** [gortsplib.Client]: the configuration fields [main] sets. *)
Record Client := mkClient {
  ReadTimeout : Z;
  WriteTimeout : Z;
  AnyPortEnable : bool
}.

(** A Go value of type [any], with the dynamic types that the packet map
    holds. *)
Inductive any :=
| any_uint8 (v : Z)
| any_uint16 (v : Z)
| any_uint32 (v : Z)
| any_bool (b : bool)
| any_uint32s (s : list Z)
| any_Extensions (s : list Extension).

(** One packet handed to a callback: media, format, packet. *)
Definition Delivery : Type := Media * Format * Packet.

(** The function literals of the program that are stored as callbacks.
    [main.go] has one, the argument of [OnPacketRTPAny]. *)
Inductive OnPacketRTPAnyFunc := func1.

(** ** The world outside the program *)

Record World := mkWorld {
  (** [base.ParseURL] *)
  ParseURL : string -> URL + error;
  (** [Client.Start]: [None] is a nil error *)
  Start : Client -> string -> string -> option error;
  (** [Client.Describe]; the response, which [main] drops, is left out *)
  Describe : URL -> Session + error;
  (** [Client.SetupAll] *)
  SetupAll : URL -> list Media -> option error;
  (** [Client.Play(nil)]; the response is dropped *)
  Play : option error;
  (** [json.MarshalIndent] at a pointer to [description.Session] *)
  MarshalIndent_Session : Session -> string -> string -> string + error;
  (** [json.MarshalIndent] at a [map[string]any] *)
  MarshalIndent_map : gmap string any -> string -> string -> string + error;
  (** packets the library delivers before [Play] hands control back *)
  arrivals_during_play : list Delivery;
  (** packets the library delivers while [main] is parked *)
  arrivals_while_parked : list Delivery
}.

(** ** Process state and the [Prog] monad *)

(** The log statements of the source. *)
Inductive LogSite :=
| UsageMsg | ParseError | StartingMsg | ConnectError | DescribeError
| SdpMarshalError | SdpHeader | SdpBlock | SetupError
| RtpMarshalError | RtpHeader | RtpBlock | PlayError | StreamingMsg.

(** Calls on the client that reach the network or change the client. *)
Inductive LibCall :=
| Client_Start (c : Client) (scheme host : string)
| Client_Describe (u : URL)
| Client_SetupAll (baseURL : URL) (medias : list Media)
| Client_OnPacketRTPAny (cb : OnPacketRTPAnyFunc)
| Client_Play
| Client_Close.

Inductive Event :=
| Log (site : LogSite) (text : string)
| Call (c : LibCall).

(** How a goroutine stops other than by returning. *)
Inductive Stop :=
| Exited (code : Z)        (* os.Exit *)
| Panicked (msg : string)  (* run-time panic *)
| Parked.                  (* select {} *)

Record Proc := mkProc {
  trace : list Event;                      (* oldest first *)
  deferred : list LibCall;                 (* defer stack, last pushed first *)
  onPacketRTPAny : option OnPacketRTPAnyFunc  (* callback held by the client *)
}.

Definition Prog (A : Type) : Type := Proc -> Proc * (A + Stop).

#[global] Instance Prog_ret : MRet Prog := fun A a p => (p, inl a).

#[global] Instance Prog_bind : MBind Prog := fun A B k m p =>
  match m p with
  | (p', inl a) => k a p'
  | (p', inr s) => (p', inr s)
  end.

Definition emit (e : Event) : Prog unit := fun p =>
  (mkProc (trace p ++ [e]) (deferred p) (onPacketRTPAny p), inl tt).

Definition stop {A} (s : Stop) : Prog A := fun p => (p, inr s).

Definition defer (c : LibCall) : Prog unit := fun p =>
  (mkProc (trace p) (c :: deferred p) (onPacketRTPAny p), inl tt).

Definition set_onPacketRTPAny (cb : OnPacketRTPAnyFunc) : Prog unit := fun p =>
  (mkProc (trace p) (deferred p) (Some cb), inl tt).

(** [s[i]] on a slice of strings: out of range panics. *)
Definition index (s : list string) (i : nat) : Prog string :=
  match s !! i with
  | Some x => mret x
  | None => stop (Panicked "index out of range")
  end.

(** *** Package [log] *)

(** [Logger.Output]: the line is terminated by a newline unless it ends
    in one already. *)
Definition log_Output (site : LogSite) (s : string) : Prog unit :=
  emit (Log site (terminated s)).

Definition os_Exit {A} (code : Z) : Prog A := stop (Exited code).

Definition log_Println (site : LogSite) (operands : list string) : Prog unit :=
  log_Output site (Sprintln operands).

(** [log.Printf]: the caller passes the formatted text. *)
Definition log_Printf (site : LogSite) (formatted : string) : Prog unit :=
  log_Output site formatted.

(** [log.Fatalln] is [Println] followed by [os.Exit(1)]. *)
Definition log_Fatalln {A} (site : LogSite) (operands : list string) : Prog A :=
  log_Output site (Sprintln operands);; os_Exit 1.

(** [log.Fatalf] is [Printf] followed by [os.Exit(1)]. *)
Definition log_Fatalf {A} (site : LogSite) (formatted : string) : Prog A :=
  log_Output site formatted;; os_Exit 1.

(** ** The packet callback of [main.go] (lines 90-112) *)

(** The map literal [packetInfo]. *)
Definition packetInfo (pkt : Packet) : gmap string any :=
  list_to_map [
    ("version", any_uint8 (Version pkt));
    ("sequence_number", any_uint16 (SequenceNumber pkt));
    ("timestamp", any_uint32 (Timestamp pkt));
    ("extension", any_bool (Extension_ pkt));
    ("padding", any_bool (Padding pkt));
    ("marker", any_bool (Marker pkt));
    ("payload_type", any_uint8 (PayloadType pkt));
    ("ssrc", any_uint32 (SSRC pkt));
    ("csrc", any_uint32s (CSRC pkt));
    ("extensions", any_Extensions (Extensions pkt));
    ("extension_profile", any_uint16 (ExtensionProfile pkt))
  ].

(** [func(medi, forma, pkt) { ... }], the argument of [OnPacketRTPAny]. *)
Definition main_func1 (w : World)
    (medi : Media) (forma : Format) (pkt : Packet) : Prog unit :=
  match MarshalIndent_map w (packetInfo pkt) "" "  " with
  | inr err =>
      log_Printf RtpMarshalError
        ("Error marshaling RTP packet to JSON: " +:+ Error err)
      (* return *)
  | inl packetJSON =>
      log_Println RtpHeader ["Received RTP packet:"];;
      log_Println RtpBlock [packetJSON]
  end.

(** Calling a stored callback. *)
Definition invoke (w : World) (cb : OnPacketRTPAnyFunc) :
    Media -> Format -> Packet -> Prog unit :=
  match cb with
  | func1 => main_func1 w
  end.

(** ** The client, as the program drives it *)

(** The library's reader hands each packet to the callback registered
    with [OnPacketRTPAny], whatever its media and format; without a
    callback the packet is dropped.  Here the invocations run one at a
    time; [concurrent_log] covers invocations that overlap. *)
Definition deliver1 (w : World) (d : Delivery) : Prog unit := fun p =>
  match onPacketRTPAny p with
  | Some cb => let '(medi, forma, pkt) := d in invoke w cb medi forma pkt p
  | None => (p, inl tt)
  end.

Fixpoint deliver (w : World) (ds : list Delivery) : Prog unit :=
  match ds with
  | [] => mret tt
  | d :: rest => deliver1 w d;; deliver w rest
  end.

Definition client_Start (w : World) (c : Client) (scheme host : string) :
    Prog (option error) :=
  emit (Call (Client_Start c scheme host));; mret (Start w c scheme host).

Definition client_Describe (w : World) (u : URL) : Prog (Session + error) :=
  emit (Call (Client_Describe u));; mret (Describe w u).

Definition client_SetupAll (w : World) (baseURL : URL) (medias : list Media) :
    Prog (option error) :=
  emit (Call (Client_SetupAll baseURL medias));; mret (SetupAll w baseURL medias).

Definition client_OnPacketRTPAny (cb : OnPacketRTPAnyFunc) : Prog unit :=
  emit (Call (Client_OnPacketRTPAny cb));; set_onPacketRTPAny cb.

Definition client_Play (w : World) : Prog (option error) :=
  emit (Call Client_Play);;
  deliver w (arrivals_during_play w);;
  mret (Play w).

(** [select {}]: the goroutine blocks for good. *)
Definition select_forever {A} : Prog A := stop Parked.

(** ** [src/main.go] *)

Module MainGo.

Definition main (w : World) (Args : list string) : Prog unit :=
  (* Ensure RTSP URL is provided *)
  (if bool_decide (length Args < 2)%nat then
     arg0 ← index Args 0;
     log_Fatalln UsageMsg ["Usage:"; arg0; "<rtsp-url>"]
   else mret tt);;
  (* Parsing RTSP URL *)
  rtspURL ← index Args 1;
  match ParseURL w rtspURL with
  | inr err => log_Fatalf ParseError ("Cannot parse RTSP URL : " +:+ Error err)
  | inl parsedURL =>
  log_Println StartingMsg ["Starting RTSP client for URL :"; rtspURL];;
  let client := {| ReadTimeout := 5 * Second;
                   WriteTimeout := 5 * Second;
                   AnyPortEnable := true |} in
  (* Step 0: CONNECT *)
  err ← client_Start w client (Scheme parsedURL) (Host parsedURL);
  match err with
  | Some e => log_Fatalf ConnectError ("Error connecting to server: " +:+ Error e)
  | None => mret tt
  end;;
  defer Client_Close;;
  (* Step 1: DESCRIBE *)
  described ← client_Describe w parsedURL;
  match described with
  | inr err => log_Fatalf DescribeError ("Error during DESCRIBE: " +:+ Error err)
  | inl desc =>
  (* Convert the SDP description to JSON format *)
  match MarshalIndent_Session w desc "" " " with
  | inr err =>
      log_Printf SdpMarshalError
        ("Error marshaling SDP description to JSON: " +:+ Error err)
  | inl descJSON =>
      log_Println SdpHeader ["SDP in JSON:"];;
      log_Println SdpBlock [descJSON]
  end;;
  (* Step 2: SETUP *)
  err ← client_SetupAll w (BaseURL desc) (Medias desc);
  match err with
  | Some e => log_Printf SetupError ("Error setting up medias: " +:+ Error e)
  | None => mret tt
  end;;
  (* Step 3: register the RTP packet callback *)
  client_OnPacketRTPAny func1;;
  (* Step 4: PLAY *)
  err ← client_Play w;
  match err with
  | Some e => log_Printf PlayError ("Error during PLAY: " +:+ Error e +:+ nl)
  | None => mret tt
  end;;
  (* Run for infinity until explicit exit *)
  log_Println StreamingMsg ["Streaming... Press Ctrl+C to exit."];;
  select_forever
  end
  end.

End MainGo.

(** ** [src/unnamed/part_000] *)

Module Part000.

Definition main (w : World) (Args : list string) : Prog unit :=
  (if bool_decide (length Args < 2)%nat then
     arg0 ← index Args 0;
     log_Fatalln UsageMsg ["Usage:"; arg0; "<rtsp-url>"]
   else mret tt);;
  rtspURL ← index Args 1;
  match ParseURL w rtspURL with
  | inr err => log_Fatalf ParseError ("Cannot parse RTSP URL : " +:+ Error err)
  | inl url =>
  log_Println StartingMsg ["Starting RTSP client for URL :"; rtspURL];;
  let client := {| ReadTimeout := 5 * Second;
                   WriteTimeout := 5 * Second;
                   AnyPortEnable := true |} in
  err ← client_Start w client (Scheme url) (Host url);
  match err with
  | Some e => log_Fatalf ConnectError ("Error connecting to server: " +:+ Error e)
  | None => mret tt
  end;;
  defer Client_Close;;
  described ← client_Describe w url;
  match described with
  | inr err => log_Fatalf DescribeError ("Error during DESCRIBE: " +:+ Error err)
  | inl desc =>
  match MarshalIndent_Session w desc "" " " with
  | inr err =>
      log_Printf SdpMarshalError
        ("Error marshaling SDP description to JSON: " +:+ Error err)
  | inl descJSON =>
      log_Println SdpHeader ["SDP in JSON:"];;
      log_Println SdpBlock [descJSON]
  end
  (* main returns *)
  end
  end.

End Part000.

(** ** Running a program as a process *)

(** The deferred calls, last pushed first. *)
Fixpoint run_deferred (cs : list LibCall) : Prog unit :=
  match cs with
  | [] => mret tt
  | c :: rest => emit (Call c);; run_deferred rest
  end.

Definition start_state : Proc := mkProc [] [] None.

(** The process from start to the point where nothing more happens:
    - [main] returns: the deferred calls run and the process exits with 0;
    - [main] panics: the deferred calls run and the panic ends the process;
    - [os.Exit]: the process ends at once, deferred calls do not run;
    - [main] parks: the process lives on, and the library delivers the
      packets that arrive. *)
Definition go_run (w : World) (body : Prog unit) : Proc * Stop :=
  match body start_state with
  | (p, inl tt) => (fst (run_deferred (deferred p) p), Exited 0)
  | (p, inr (Panicked msg)) => (fst (run_deferred (deferred p) p), Panicked msg)
  | (p, inr (Exited code)) => (p, Exited code)
  | (p, inr Parked) =>
      match deliver w (arrivals_while_parked w) p with
      | (p', inl tt) => (p', Parked)
      | (p', inr s) => (p', s)
      end
  end.

(** What the process wrote and called, and how it ended. *)
Definition run (w : World) (Args : list string) : list Event * Stop :=
  let '(p, s) := go_run w (MainGo.main w Args) in (trace p, s).

Definition run_part_000 (w : World) (Args : list string) : list Event * Stop :=
  let '(p, s) := go_run w (Part000.main w Args) in (trace p, s).

(** ** Reading a trace *)

#[global] Instance LogSite_eq_dec : EqDecision LogSite.
Proof. solve_decision. Defined.

(** The library calls of a trace, in order. *)
Definition calls (tr : list Event) : list LibCall :=
  omap (λ e, match e with Call c => Some c | Log _ _ => None end) tr.

(** The lines one log statement wrote, in order. *)
Definition logged (site : LogSite) (tr : list Event) : list string :=
  omap (λ e, match e with
             | Log s text => if decide (s = site) then Some text else None
             | Call _ => None
             end) tr.

(** Lines written by the packet callback. *)
Definition from_callback (e : Event) : bool :=
  match e with
  | Log (RtpMarshalError | RtpHeader | RtpBlock) _ => true
  | _ => false
  end.

(** The process state with [es] appended to its trace. *)
Definition add_events (es : list Event) (p : Proc) : Proc :=
  mkProc (trace p ++ es) (deferred p) (onPacketRTPAny p).

(** The client [main] builds. *)
Definition the_client : Client :=
  {| ReadTimeout := 5 * Second; WriteTimeout := 5 * Second; AnyPortEnable := true |}.

(** The eleven keys of [packetInfo]. *)
Definition packet_fields : list string :=
  ["version"; "sequence_number"; "timestamp"; "extension"; "padding"; "marker";
   "payload_type"; "ssrc"; "csrc"; "extensions"; "extension_profile"].

(** What one callback invocation writes for [pkt]. *)
Definition packet_events (w : World) (pkt : Packet) : list Event :=
  match MarshalIndent_map w (packetInfo pkt) "" "  " with
  | inr err =>
      [Log RtpMarshalError
         (terminated ("Error marshaling RTP packet to JSON: " +:+ Error err))]
  | inl packetJSON =>
      [Log RtpHeader ("Received RTP packet:" +:+ nl); Log RtpBlock (packetJSON +:+ nl)]
  end.

Definition packets_events (w : World) (ds : list Delivery) : list Event :=
  flat_map (λ d, packet_events w d.2) ds.

(** What the description reporter writes for [desc]. *)
Definition sdp_events (w : World) (desc : Session) : list Event :=
  match MarshalIndent_Session w desc "" " " with
  | inr err =>
      [Log SdpMarshalError
         (terminated ("Error marshaling SDP description to JSON: " +:+ Error err))]
  | inl descJSON =>
      [Log SdpHeader ("SDP in JSON:" +:+ nl); Log SdpBlock (descJSON +:+ nl)]
  end.

(** The line a failed [SetupAll] leaves, if it failed. *)
Definition setup_events (w : World) (desc : Session) : list Event :=
  match SetupAll w (BaseURL desc) (Medias desc) with
  | Some e => [Log SetupError (terminated ("Error setting up medias: " +:+ Error e))]
  | None => []
  end.

(** The line a failed [Play] leaves, if it failed. *)
Definition play_events (w : World) : list Event :=
  match Play w with
  | Some e => [Log PlayError ("Error during PLAY: " +:+ Error e +:+ nl)]
  | None => []
  end.

(** The events of [main.go] up to and including the DESCRIBE request. *)
Definition opening (rtspURL : string) (u : URL) : list Event :=
  [Log StartingMsg ("Starting RTSP client for URL : " +:+ rtspURL +:+ nl);
   Call (Client_Start the_client (Scheme u) (Host u));
   Call (Client_Describe u)].

(** *** Callbacks on the library's goroutines

    [deliver] runs one callback invocation after the other.  The library
    calls the callback from its own goroutines, so the lines of one
    invocation can fall between the lines of another and between what
    [main] writes once the callback is registered.  A log line is written
    in one piece, and each goroutine writes its lines in program order. *)

(** [merges ts tr]: [tr] is an interleaving of the sequences [ts], each
    taken from left to right. *)
Inductive merges {A : Type} : list (list A) -> list A -> Prop :=
| merges_done (ts : list (list A)) :
    Forall (λ t, t = []) ts -> merges ts []
| merges_take (ts1 : list (list A)) (x : A) (t : list A) (ts2 : list (list A))
      (tr : list A) :
    merges (ts1 ++ t :: ts2) tr -> merges (ts1 ++ (x :: t) :: ts2) (x :: tr).

(** What [main] does on a described run up to the registration of the
    callback, and from there on. *)
Definition main_until_registration (w : World) (rtspURL : string) (u : URL)
    (desc : Session) : list Event :=
  opening rtspURL u
  ++ sdp_events w desc
  ++ [Call (Client_SetupAll (BaseURL desc) (Medias desc))]
  ++ setup_events w desc
  ++ [Call (Client_OnPacketRTPAny func1)].

Definition main_after_registration (w : World) : list Event :=
  [Call Client_Play]
  ++ play_events w
  ++ [Log StreamingMsg ("Streaming... Press Ctrl+C to exit." +:+ nl)].

(** The traces of [main.go] when the callback invocations for the packets
    of the world run concurrently: on a described run, what [main] did up
    to the registration, followed by any interleaving of the rest of
    [main] with the lines of the invocations; on the other runs, where no
    callback is ever registered, the trace of [run]. *)
Inductive concurrent_log (w : World) (Args : list string) : list Event -> Prop :=
| log_described (prog rtspURL : string) (rest : list string) (u : URL)
      (desc : Session) (tl : list Event) :
    Args = prog :: rtspURL :: rest ->
    ParseURL w rtspURL = inl u ->
    Start w the_client (Scheme u) (Host u) = None ->
    Describe w u = inl desc ->
    merges (main_after_registration w
            :: map (λ d : Delivery, packet_events w d.2)
                 (arrivals_during_play w ++ arrivals_while_parked w)) tl ->
    concurrent_log w Args (main_until_registration w rtspURL u desc ++ tl)
| log_stopped :
    snd (run w Args) <> Parked ->
    concurrent_log w Args (fst (run w Args)).

(** Headers written minus blocks written, event by event, and the lowest
    value this difference takes along a sequence (0 at the start). *)
Definition weight (e : Event) : Z :=
  match e with
  | Log RtpHeader _ => 1
  | Log RtpBlock _ => -1
  | _ => 0
  end.

Fixpoint lowest (tr : list Event) : Z :=
  match tr with
  | [] => 0
  | e :: rest => Z.min 0 (weight e + lowest rest)
  end.

(** [Close] among the calls. *)
Definition is_close (c : LibCall) : bool :=
  match c with
  | Client_Close => true
  | _ => false
  end.

(** The log statements that end the process: [log.Fatalln], [log.Fatalf]. *)
Definition fatal_site (site : LogSite) : bool :=
  match site with
  | UsageMsg | ParseError | ConnectError | DescribeError => true
  | _ => false
  end.

Definition is_fatal (e : Event) : bool :=
  match e with
  | Log site _ => fatal_site site
  | Call _ => false
  end.

(** A log line that ends in a newline; a call is no line. *)
Definition newline_terminated (e : Event) : bool :=
  match e with
  | Log _ text => ends_with_newline text
  | Call _ => true
  end.

(** Every line of [block] in [tr] comes right after the line [header] of
    the statement [hdr]. *)
Definition headed (hdr block : LogSite) (header : string) (tr : list Event) : Prop :=
  forall (i : nat) (text : string),
    tr !! i = Some (Log block text) ->
    exists j, i = S j /\ tr !! j = Some (Log hdr header).

(** The header fields of a packet: everything but the payload. *)
Definition same_header (p1 p2 : Packet) : Prop :=
  Version p1 = Version p2
  /\ Padding p1 = Padding p2
  /\ Extension_ p1 = Extension_ p2
  /\ Marker p1 = Marker p2
  /\ PayloadType p1 = PayloadType p2
  /\ SequenceNumber p1 = SequenceNumber p2
  /\ Timestamp p1 = Timestamp p2
  /\ SSRC p1 = SSRC p2
  /\ CSRC p1 = CSRC p2
  /\ ExtensionProfile p1 = ExtensionProfile p2
  /\ Extensions p1 = Extensions p2.

(** The process state in which a run of [main.go] is left. *)
Definition final_state (w : World) (Args : list string) : Proc :=
  fst (go_run w (MainGo.main w Args)).

(** ** Sample worlds

    Concrete worlds on which the program can be evaluated.  The two
    serializers follow the layout of [json.MarshalIndent]: object keys in
    sorted order, one member per line, nested values indented. *)

Module Sample.

Definition dq : string := String "034"%char "".
Definition quoted (s : string) : string := dq +:+ s +:+ dq.

Definition json_bool (b : bool) : string := if b then "true" else "false".

Definition json_array (pre indent : string) (items : list string) : string :=
  match items with
  | [] => "[]"
  | _ => "[" +:+ nl
         +:+ String.concat ("," +:+ nl) ((λ s, pre +:+ indent +:+ s) <$> items)
         +:+ nl +:+ pre +:+ "]"
  end.

Definition json_any (pre indent : string) (v : any) : string :=
  match v with
  | any_uint8 z | any_uint16 z | any_uint32 z => pretty z
  | any_bool b => json_bool b
  | any_uint32s s => json_array pre indent (pretty <$> s)
  | any_Extensions s => json_array pre indent ((λ _, "{}") <$> s)
  end.

Definition json_object (pre indent : string) (members : list (string * string)) : string :=
  match members with
  | [] => "{}"
  | _ => "{" +:+ nl
         +:+ String.concat ("," +:+ nl)
               ((λ kv, pre +:+ indent +:+ quoted kv.1 +:+ ": " +:+ kv.2) <$> members)
         +:+ nl +:+ pre +:+ "}"
  end.

Definition key_le (a b : string * string) : Prop := String.leb a.1 b.1 = true.

#[local] Instance key_le_dec a b : Decision (key_le a b).
Proof. unfold key_le. apply _. Defined.

Definition marshal_map (m : gmap string any) (pre indent : string) : string + error :=
  inl (json_object pre indent
         (merge_sort key_le
            ((λ kv, (kv.1, json_any (pre +:+ indent) indent kv.2)) <$> map_to_list m))).

Definition marshal_media (pre indent : string) (m : Media) : string :=
  json_object pre indent
    [("Formats", json_array (pre +:+ indent) indent
                   ((λ f, json_object (pre +:+ indent +:+ indent) indent
                            [("PayloadType", pretty (FormatPayloadType f))])
                    <$> Formats m));
     ("Type", quoted (MediaType m))].

Definition marshal_session (d : Session) (pre indent : string) : string + error :=
  inl (json_object pre indent
         [("BaseURL", quoted (Scheme (BaseURL d) +:+ "://" +:+ Host (BaseURL d)
                              +:+ Path (BaseURL d)));
          ("Medias", json_array (pre +:+ indent) indent
                       (marshal_media (pre +:+ indent +:+ indent) indent <$> Medias d));
          ("Title", quoted (Title d))]).

(** A parser that accepts [rtsp://host/path] and nothing else. *)
Definition parse_url (s : string) : URL + error :=
  if String.prefix "rtsp://" s then
    let rest := String.substring 7 (String.length s - 7) s in
    match String.index 0 "/" rest with
    | Some i => inl (mkURL "rtsp" (String.substring 0 i rest)
                       (String.substring i (String.length rest - i) rest))
    | None => inl (mkURL "rtsp" rest "")
    end
  else inr (mkError ("unsupported scheme '" +:+ s +:+ "'")).

Definition video : Media := mkMedia "video" [mkFormat 96].
Definition audio : Media := mkMedia "audio" [mkFormat 0].

Definition session (u : URL) : Session := mkSession u "mystream" [video; audio].

Definition pkt (seq ts : Z) (pt : Z) : Packet :=
  {| Version := 2; Padding := false; Extension_ := false; Marker := true;
     PayloadType := pt; SequenceNumber := seq; Timestamp := ts;
     SSRC := 3735928559; CSRC := []; ExtensionProfile := 0;
     Extensions := []; Payload := [1; 2; 3] |}.

Definition d1 : Delivery := (video, mkFormat 96, pkt 100 9000 96).
Definition d2 : Delivery := (audio, mkFormat 0, pkt 7 160 0).
Definition d3 : Delivery := (video, mkFormat 96, pkt 101 12000 96).

(** A world built from the outcome wanted for each step.  [rtp_err]
    looks at the sequence number of the packet to be serialized. *)
Definition world (start_err describe_err setup_err play_err : option error)
    (sdp_err : option error) (rtp_err : Z -> option error)
    (early late : list Delivery) : World :=
  {| ParseURL := parse_url;
     Start := λ _ _ _, start_err;
     Describe := λ u, match describe_err with
                      | Some e => inr e
                      | None => inl (session u)
                      end;
     SetupAll := λ _ _, setup_err;
     Play := play_err;
     MarshalIndent_Session := λ d pre ind,
       match sdp_err with Some e => inr e | None => marshal_session d pre ind end;
     MarshalIndent_map := λ m pre ind,
       match m !! "sequence_number" with
       | Some (any_uint16 n) =>
           match rtp_err n with Some e => inr e | None => marshal_map m pre ind end
       | _ => marshal_map m pre ind
       end;
     arrivals_during_play := early;
     arrivals_while_parked := late |}.

Definition ok : Z -> option error := λ _, None.

Definition args : list string := ["rtspdump"; "rtsp://localhost:8554/mystream"].
Definition url : URL := mkURL "rtsp" "localhost:8554" "/mystream".

(** Everything works; one packet arrives early, two later. *)
Definition healthy : World := world None None None None None ok [d1] [d2; d3].

(** A log of [healthy] in which the first two callback invocations
    overlap: both header lines are written before either block. *)
Definition interleaved : list Event :=
  main_until_registration healthy "rtsp://localhost:8554/mystream" url (session url)
  ++ [Call Client_Play]
  ++ take 1 (packet_events healthy d1.2)
  ++ take 1 (packet_events healthy d2.2)
  ++ drop 1 (packet_events healthy d1.2)
  ++ drop 1 (packet_events healthy d2.2)
  ++ [Log StreamingMsg ("Streaming... Press Ctrl+C to exit." +:+ nl)]
  ++ packet_events healthy d3.2.

(** Nobody listens on the port.  [Start] only records scheme and host;
    the library opens the connection when the first request is sent, so
    the dial error comes back from [Describe]. *)
Definition refused : error :=
  mkError "dial tcp 127.0.0.1:8554: connect: connection refused".
Definition unreachable : World :=
  world None (Some refused) None None None ok [d1] [d2; d3].

(** The server is there, the stream is not. *)
Definition not_found : error := mkError "bad status code: 404 (Not Found)".
Definition describe_refused : World :=
  world None (Some not_found) None None None ok [d1] [d2; d3].

(** SETUP and PLAY are both refused. *)
Definition setup_refused : error := mkError "bad status code: 461 (Unsupported Transport)".
Definition play_refused : error := mkError "bad status code: 455 (Method Not Valid in This State)".
Definition degraded : World :=
  world None None (Some setup_refused) (Some play_refused) None ok [] [d2].

(** Neither the description nor the packet numbered 7 can be serialized. *)
Definition unsupported : error := mkError "json: unsupported value".
Definition unserializable : World :=
  world None None None None (Some unsupported)
    (λ n, if decide (n = 7) then Some unsupported else None) [d1] [d2; d3].

End Sample.

(** * Properties *)

(** ** The logger *)

Lemma ends_with_newline_nl (s : string) : ends_with_newline (s +:+ nl) = true.
Proof.
  induction s as [|c s IH]; [reflexivity|].
  destruct s; [reflexivity | exact IH].
Qed.

Lemma app_string_assoc (a b c : string) : (a +:+ b) +:+ c = a +:+ (b +:+ c).
Proof.
  induction a as [|x a IH]; [reflexivity|].
  change (String x ((a +:+ b) +:+ c) = String x (a +:+ b +:+ c)).
  now rewrite IH.
Qed.

Lemma terminated_nl (s : string) : terminated (s +:+ nl) = s +:+ nl.
Proof. unfold terminated. now rewrite ends_with_newline_nl. Qed.

Lemma terminated_nl2 (a b : string) : terminated (a +:+ b +:+ nl) = a +:+ b +:+ nl.
Proof. rewrite <- app_string_assoc. apply terminated_nl. Qed.

Lemma terminated_ends (s : string) : ends_with_newline (terminated s) = true.
Proof.
  unfold terminated. destruct (ends_with_newline s) eqn:E; [exact E|].
  apply ends_with_newline_nl.
Qed.

Lemma Sprintln_1 (a : string) : terminated (Sprintln [a]) = a +:+ nl.
Proof. unfold Sprintln. apply terminated_nl. Qed.

Lemma Sprintln_2 (a b : string) :
  terminated (Sprintln [a; b]) = a +:+ " " +:+ b +:+ nl.
Proof.
  unfold Sprintln. rewrite terminated_nl. cbn [spaced].
  now rewrite !app_string_assoc.
Qed.

Lemma Sprintln_3 (a b c : string) :
  terminated (Sprintln [a; b; c]) = a +:+ " " +:+ b +:+ " " +:+ c +:+ nl.
Proof.
  unfold Sprintln. rewrite terminated_nl. cbn [spaced].
  now rewrite !app_string_assoc.
Qed.

(** ** Appending to the trace *)

Lemma add_events_nil p : add_events [] p = p.
Proof. destruct p; unfold add_events; simpl. now rewrite app_nil_r. Qed.

Lemma add_events_app es1 es2 p :
  add_events es2 (add_events es1 p) = add_events (es1 ++ es2) p.
Proof. unfold add_events; simpl. now rewrite app_assoc. Qed.

Lemma calls_app tr1 tr2 : calls (tr1 ++ tr2) = calls tr1 ++ calls tr2.
Proof. apply omap_app. Qed.

Lemma logged_app site tr1 tr2 :
  logged site (tr1 ++ tr2) = logged site tr1 ++ logged site tr2.
Proof. apply omap_app. Qed.

(** ** The packet callback *)

(** One invocation appends [packet_events w pkt] to the trace, touches
    nothing else, and returns. *)
Lemma main_func1_events w medi forma pkt p :
  main_func1 w medi forma pkt p = (add_events (packet_events w pkt) p, inl tt).
Proof.
  unfold main_func1, packet_events.
  destruct (MarshalIndent_map w (packetInfo pkt) "" "  ") as [js|e].
  - unfold log_Println, log_Output. rewrite !Sprintln_1.
    unfold mbind, Prog_bind, emit, add_events. simpl.
    now rewrite <- app_assoc.
  - reflexivity.
Qed.

Lemma deliver_registered w ds : forall p,
  onPacketRTPAny p = Some func1 ->
  deliver w ds p = (add_events (packets_events w ds) p, inl tt).
Proof.
  induction ds as [|[[medi forma] pkt] ds IH]; intros p Hcb.
  - simpl. now rewrite add_events_nil.
  - cbn [deliver]. unfold mbind, Prog_bind, deliver1 at 1. rewrite Hcb. cbn [invoke].
    rewrite main_func1_events, IH by exact Hcb.
    now rewrite add_events_app.
Qed.

Lemma deliver_unregistered w ds : forall p,
  onPacketRTPAny p = None -> deliver w ds p = (p, inl tt).
Proof.
  induction ds as [|d ds IH]; intros p Hcb; [reflexivity|].
  cbn [deliver]. unfold mbind, Prog_bind, deliver1 at 1. rewrite Hcb. now apply IH.
Qed.

Lemma packets_events_app w ds1 ds2 :
  packets_events w (ds1 ++ ds2) = packets_events w ds1 ++ packets_events w ds2.
Proof. unfold packets_events. apply flat_map_app. Qed.

Lemma packet_events_from_callback w pkt :
  forallb from_callback (packet_events w pkt) = true.
Proof.
  unfold packet_events.
  now destruct (MarshalIndent_map w (packetInfo pkt) "" "  ").
Qed.

Lemma packets_events_from_callback w ds :
  filter (λ e, from_callback e = true) (packets_events w ds) = packets_events w ds.
Proof.
  induction ds as [|d ds IH]; [reflexivity|].
  unfold packets_events in *. cbn [flat_map]. rewrite filter_app, IH. f_equal.
  generalize (packet_events_from_callback w d.2).
  induction (packet_events w d.2) as [|e es IHes]; [reflexivity|].
  cbn [forallb]. intros [He Hes]%andb_prop.
  rewrite filter_cons_True by exact He. now rewrite IHes.
Qed.

Lemma calls_packets_events w ds : calls (packets_events w ds) = [].
Proof.
  induction ds as [|d ds IH]; [reflexivity|].
  unfold packets_events in *. cbn [flat_map]. rewrite calls_app, IH, app_nil_r.
  unfold packet_events.
  now destruct (MarshalIndent_map w (packetInfo d.2) "" "  ").
Qed.

Lemma logged_sdp_packets_events w ds : logged SdpBlock (packets_events w ds) = [].
Proof.
  induction ds as [|d ds IH]; [reflexivity|].
  unfold packets_events in *. cbn [flat_map]. rewrite logged_app, IH, app_nil_r.
  unfold packet_events.
  now destruct (MarshalIndent_map w (packetInfo d.2) "" "  ").
Qed.

(** ** The main sequence, case by case *)

Ltac unfold_run :=
  unfold run, run_part_000, go_run, MainGo.main, Part000.main, mbind, Prog_bind;
  simpl; fold the_client.

Ltac tidy_lines :=
  rewrite ?Sprintln_1, ?Sprintln_2, ?Sprintln_3, ?terminated_nl2.

(** [os.Args] is empty: [os.Args[0]] panics. *)
Lemma run_no_args w : run w [] = ([], Panicked "index out of range").
Proof. reflexivity. Qed.

(** No argument after the program name. *)
Lemma run_usage w prog :
  run w [prog] = ([Log UsageMsg ("Usage: " +:+ prog +:+ " <rtsp-url>" +:+ nl)], Exited 1).
Proof. unfold_run. unfold log_Output. now tidy_lines. Qed.

(** The URL does not parse. *)
Lemma run_parse_error w prog rtspURL rest e :
  ParseURL w rtspURL = inr e ->
  run w (prog :: rtspURL :: rest) =
    ([Log ParseError (terminated ("Cannot parse RTSP URL : " +:+ Error e))], Exited 1).
Proof. intros HU. unfold_run. now rewrite HU. Qed.

(** The connection cannot be opened. *)
Lemma run_connect_error w prog rtspURL rest u e :
  ParseURL w rtspURL = inl u ->
  Start w the_client (Scheme u) (Host u) = Some e ->
  run w (prog :: rtspURL :: rest) =
    ([Log StartingMsg ("Starting RTSP client for URL : " +:+ rtspURL +:+ nl);
      Call (Client_Start the_client (Scheme u) (Host u));
      Log ConnectError (terminated ("Error connecting to server: " +:+ Error e))],
     Exited 1).
Proof. intros HU HS. unfold_run. rewrite HU, HS. simpl. now tidy_lines. Qed.

(** DESCRIBE is refused. *)
Lemma run_describe_error w prog rtspURL rest u e :
  ParseURL w rtspURL = inl u ->
  Start w the_client (Scheme u) (Host u) = None ->
  Describe w u = inr e ->
  run w (prog :: rtspURL :: rest) =
    (opening rtspURL u
     ++ [Log DescribeError (terminated ("Error during DESCRIBE: " +:+ Error e))],
     Exited 1).
Proof.
  intros HU HS HD. unfold_run. rewrite HU, HS. simpl. rewrite HD. simpl.
  now tidy_lines.
Qed.

(** DESCRIBE is answered: the whole sequence runs and [main] parks. *)
Lemma run_described w prog rtspURL rest u desc :
  ParseURL w rtspURL = inl u ->
  Start w the_client (Scheme u) (Host u) = None ->
  Describe w u = inl desc ->
  run w (prog :: rtspURL :: rest) =
    (opening rtspURL u
     ++ sdp_events w desc
     ++ [Call (Client_SetupAll (BaseURL desc) (Medias desc))]
     ++ setup_events w desc
     ++ [Call (Client_OnPacketRTPAny func1); Call Client_Play]
     ++ packets_events w (arrivals_during_play w)
     ++ play_events w
     ++ [Log StreamingMsg ("Streaming... Press Ctrl+C to exit." +:+ nl)]
     ++ packets_events w (arrivals_while_parked w),
     Parked).
Proof.
  intros HU HS HD. unfold_run. rewrite HU, HS. simpl. rewrite HD.
  unfold sdp_events, setup_events, play_events, client_Play, mbind, Prog_bind.
  destruct (MarshalIndent_Session w desc "" " ") as [js|e1];
  destruct (SetupAll w (BaseURL desc) (Medias desc)) as [e2|];
  simpl; rewrite deliver_registered by reflexivity; simpl;
  destruct (Play w) as [e3|]; simpl;
  rewrite deliver_registered by reflexivity; simpl;
  tidy_lines; rewrite <- ?app_assoc; reflexivity.
Qed.

(** Every run falls in one of the cases above. *)
Lemma run_cases w Args :
  Args = []
  \/ (exists prog, Args = [prog])
  \/ (exists prog rtspURL rest e,
        Args = prog :: rtspURL :: rest /\ ParseURL w rtspURL = inr e)
  \/ (exists prog rtspURL rest u e,
        Args = prog :: rtspURL :: rest /\ ParseURL w rtspURL = inl u
        /\ Start w the_client (Scheme u) (Host u) = Some e)
  \/ (exists prog rtspURL rest u e,
        Args = prog :: rtspURL :: rest /\ ParseURL w rtspURL = inl u
        /\ Start w the_client (Scheme u) (Host u) = None
        /\ Describe w u = inr e)
  \/ (exists prog rtspURL rest u desc,
        Args = prog :: rtspURL :: rest /\ ParseURL w rtspURL = inl u
        /\ Start w the_client (Scheme u) (Host u) = None
        /\ Describe w u = inl desc).
Proof.
  destruct Args as [|prog [|rtspURL rest]]; [now left | right; left; eauto |].
  do 2 right.
  destruct (ParseURL w rtspURL) as [u|e] eqn:HU; [right | left; eauto 10].
  destruct (Start w the_client (Scheme u) (Host u)) as [e|] eqn:HS;
    [left; eauto 10 | right].
  destruct (Describe w u) as [desc|e] eqn:HD; [right | left]; eauto 12.
Qed.

(** ** Invocation and connection errors *)

(** C4.  An invocation with no command-line argument, or with an argument
    that does not parse as an RTSP URL, ends with exit status 1 after one
    log line, the usage message or the parse diagnostic; the trace holds
    no call on the client (no Connect, Describe, Setup, Play) and no line
    of the packet callback. *)
Theorem bad_invocation_stops_before_network (w : World) (Args : list string) :
  (length Args = 1%nat
   \/ exists rtspURL e, Args !! 1%nat = Some rtspURL /\ ParseURL w rtspURL = inr e) ->
  snd (run w Args) = Exited 1
  /\ calls (fst (run w Args)) = []
  /\ filter (λ e, from_callback e = true) (fst (run w Args)) = []
  /\ ((exists prog,
         Args = [prog]
         /\ fst (run w Args) =
              [Log UsageMsg ("Usage: " +:+ prog +:+ " <rtsp-url>" +:+ nl)])
      \/ (exists rtspURL e,
            Args !! 1%nat = Some rtspURL /\ ParseURL w rtspURL = inr e
            /\ fst (run w Args) =
                 [Log ParseError (terminated ("Cannot parse RTSP URL : " +:+ Error e))])).
Proof.
  intros [Hlen | (rtspURL & e & Harg & HU)].
  - destruct Args as [|prog [|? ?]]; try discriminate.
    rewrite run_usage. repeat split. left. eauto.
  - destruct Args as [|prog [|url rest]]; try discriminate.
    cbn in Harg. injection Harg as ->.
    rewrite (run_parse_error _ _ _ _ _ HU). repeat split. right. eauto.
Qed.

Lemma bad_invocation_witness :
  snd (run Sample.healthy ["rtspdump"; "localhost:8554/mystream"]) = Exited 1
  /\ calls (fst (run Sample.healthy ["rtspdump"; "localhost:8554/mystream"])) = [].
Proof.
  destruct (bad_invocation_stops_before_network Sample.healthy
              ["rtspdump"; "localhost:8554/mystream"]) as (Hstop & Hcalls & _).
  - right. exists "localhost:8554/mystream".
    exists (mkError "unsupported scheme 'localhost:8554/mystream'").
    split; reflexivity.
  - split; [exact Hstop | exact Hcalls].
Defined.

(** C5, as the code has it.  When the connection cannot be established
    the process logs the error and exits with status 1 at once, whichever
    call reports the failure.  If [Start] reports it, the only call is
    [Start] and the line is the connection error.  If [Start] returns nil
    and the failure surfaces in the first request, which is where the
    library opens the connection, the calls are [Start] and [Describe] and
    the line is the DESCRIBE error.  Either way there is no [SetupAll], no
    registration and no [Play], and the only other line written is the
    start notice: no description and no packet is printed. *)
Theorem connect_failure_is_fatal (w : World) (prog rtspURL : string)
    (rest : list string) (u : URL) (e : error) :
  ParseURL w rtspURL = inl u ->
  (Start w the_client (Scheme u) (Host u) = Some e
   \/ (Start w the_client (Scheme u) (Host u) = None /\ Describe w u = inr e)) ->
  snd (run w (prog :: rtspURL :: rest)) = Exited 1
  /\ (Start w the_client (Scheme u) (Host u) = Some e ->
      fst (run w (prog :: rtspURL :: rest)) =
        [Log StartingMsg ("Starting RTSP client for URL : " +:+ rtspURL +:+ nl);
         Call (Client_Start the_client (Scheme u) (Host u));
         Log ConnectError (terminated ("Error connecting to server: " +:+ Error e))])
  /\ (Start w the_client (Scheme u) (Host u) = None ->
      fst (run w (prog :: rtspURL :: rest)) =
        [Log StartingMsg ("Starting RTSP client for URL : " +:+ rtspURL +:+ nl);
         Call (Client_Start the_client (Scheme u) (Host u));
         Call (Client_Describe u);
         Log DescribeError (terminated ("Error during DESCRIBE: " +:+ Error e))])
  /\ (calls (fst (run w (prog :: rtspURL :: rest))) =
        [Client_Start the_client (Scheme u) (Host u)]
      \/ calls (fst (run w (prog :: rtspURL :: rest))) =
           [Client_Start the_client (Scheme u) (Host u); Client_Describe u])
  /\ (forall site text,
        In (Log site text) (fst (run w (prog :: rtspURL :: rest))) ->
        site = StartingMsg \/ site = ConnectError \/ site = DescribeError).
Proof.
  intros HU [HS | [HS HD]].
  - rewrite (run_connect_error _ _ _ _ _ _ HU HS). cbn [fst snd].
    split; [reflexivity|]. split; [reflexivity|].
    split; [intros HN; rewrite HN in HS; discriminate|].
    split; [left; reflexivity|].
    intros site text [H|[H|[H|[]]]]; inversion H; auto.
  - rewrite (run_describe_error _ _ _ _ _ _ HU HS HD). cbn [fst snd].
    split; [reflexivity|].
    split; [intros HN; rewrite HN in HS; discriminate|].
    split; [reflexivity|].
    split; [right; reflexivity|].
    intros site text [H|[H|[H|[H|[]]]]]; inversion H; auto.
Qed.

Lemma connect_failure_witness :
  snd (run Sample.unreachable Sample.args) = Exited 1
  /\ logged SdpBlock (fst (run Sample.unreachable Sample.args)) = []
  /\ logged RtpBlock (fst (run Sample.unreachable Sample.args)) = [].
Proof.
  destruct (connect_failure_is_fatal Sample.unreachable "rtspdump"
              "rtsp://localhost:8554/mystream" [] Sample.url Sample.refused)
    as (Hstop & _); [reflexivity | right; split; reflexivity |].
  split; [exact Hstop | split; reflexivity].
Defined.

(** C5, as the specification words it, fails: nobody listens on the port,
    [Start] returns nil and the dial error comes back from [Describe].
    The process does exit with status 1, but [Describe] has been issued
    and the line written is the DESCRIBE error, not a connection error. *)
Lemma connect_failure_counterexample :
  ParseURL Sample.unreachable "rtsp://localhost:8554/mystream" = inl Sample.url
  /\ Start Sample.unreachable the_client "rtsp" "localhost:8554" = None
  /\ Describe Sample.unreachable Sample.url = inr Sample.refused
  /\ snd (run Sample.unreachable Sample.args) = Exited 1
  /\ calls (fst (run Sample.unreachable Sample.args)) =
       [Client_Start the_client "rtsp" "localhost:8554"; Client_Describe Sample.url]
  /\ logged ConnectError (fst (run Sample.unreachable Sample.args)) = []
  /\ logged DescribeError (fst (run Sample.unreachable Sample.args)) =
       [terminated ("Error during DESCRIBE: " +:+ Error Sample.refused)].
Proof. repeat split. Qed.

(** ** Errors of the session calls *)

(** C1, as the code has it.  When Connect succeeds and Describe fails, the
    process logs the DESCRIBE error and exits with status 1: the calls on
    the client are [Start] and [Describe] and nothing else, so neither
    Setup nor Play is attempted and no callback is registered. *)
Theorem describe_failure_is_fatal (w : World) (prog rtspURL : string)
    (rest : list string) (u : URL) (e : error) :
  ParseURL w rtspURL = inl u ->
  Start w the_client (Scheme u) (Host u) = None ->
  Describe w u = inr e ->
  run w (prog :: rtspURL :: rest) =
    ([Log StartingMsg ("Starting RTSP client for URL : " +:+ rtspURL +:+ nl);
      Call (Client_Start the_client (Scheme u) (Host u));
      Call (Client_Describe u);
      Log DescribeError (terminated ("Error during DESCRIBE: " +:+ Error e))],
     Exited 1)
  /\ calls (fst (run w (prog :: rtspURL :: rest))) =
       [Client_Start the_client (Scheme u) (Host u); Client_Describe u].
Proof.
  intros HU HS HD. rewrite (run_describe_error _ _ _ _ _ _ HU HS HD).
  split; reflexivity.
Qed.

Lemma describe_failure_witness :
  snd (run Sample.describe_refused Sample.args) = Exited 1.
Proof.
  destruct (describe_failure_is_fatal Sample.describe_refused "rtspdump"
              "rtsp://localhost:8554/mystream" [] Sample.url Sample.not_found)
    as [Hrun _]; [reflexivity | reflexivity | reflexivity |].
  exact (f_equal snd Hrun).
Defined.

(** C1, as the specification words it, fails: in a world where the
    connection is opened and DESCRIBE is answered with an error, the
    process is not left running (it exits with status 1) and the trace
    holds no [SetupAll] and no [Play]. *)
Lemma describe_failure_counterexample :
  ParseURL Sample.describe_refused "rtsp://localhost:8554/mystream" = inl Sample.url
  /\ Start Sample.describe_refused the_client "rtsp" "localhost:8554" = None
  /\ Describe Sample.describe_refused Sample.url = inr Sample.not_found
  /\ snd (run Sample.describe_refused Sample.args) = Exited 1
  /\ calls (fst (run Sample.describe_refused Sample.args)) =
       [Client_Start the_client "rtsp" "localhost:8554"; Client_Describe Sample.url].
Proof. repeat split. Qed.

(** C6.  Once DESCRIBE has been answered, neither a failed Setup nor a
    failed Play ends the process: whatever the two calls return, the calls
    on the client are Start, Describe, SetupAll, OnPacketRTPAny, Play, in
    this order, and [main] ends parked.  A failed Setup is logged between
    the [SetupAll] call and the registration of the callback; a failed Play
    is logged after the [Play] call (and after whatever packets the
    callback handled meanwhile), before the streaming notice. *)
Theorem setup_and_play_failures_are_logged_only (w : World)
    (prog rtspURL : string) (rest : list string) (u : URL) (desc : Session) :
  ParseURL w rtspURL = inl u ->
  Start w the_client (Scheme u) (Host u) = None ->
  Describe w u = inl desc ->
  snd (run w (prog :: rtspURL :: rest)) = Parked
  /\ calls (fst (run w (prog :: rtspURL :: rest))) =
       [Client_Start the_client (Scheme u) (Host u);
        Client_Describe u;
        Client_SetupAll (BaseURL desc) (Medias desc);
        Client_OnPacketRTPAny func1;
        Client_Play]
  /\ (forall e, SetupAll w (BaseURL desc) (Medias desc) = Some e ->
      exists before after,
        fst (run w (prog :: rtspURL :: rest)) =
          before
          ++ [Call (Client_SetupAll (BaseURL desc) (Medias desc));
              Log SetupError (terminated ("Error setting up medias: " +:+ Error e));
              Call (Client_OnPacketRTPAny func1);
              Call Client_Play]
          ++ after)
  /\ (forall e, Play w = Some e ->
      exists before,
        fst (run w (prog :: rtspURL :: rest)) =
          before
          ++ [Call Client_Play]
          ++ packets_events w (arrivals_during_play w)
          ++ [Log PlayError ("Error during PLAY: " +:+ Error e +:+ nl);
              Log StreamingMsg ("Streaming... Press Ctrl+C to exit." +:+ nl)]
          ++ packets_events w (arrivals_while_parked w)).
Proof.
  intros HU HS HD. rewrite (run_described _ _ _ _ _ _ HU HS HD). cbn [fst snd].
  split; [reflexivity|]. split; [|split].
  - rewrite !calls_app, !calls_packets_events.
    unfold opening, sdp_events, setup_events, play_events.
    destruct (MarshalIndent_Session w desc "" " ");
      destruct (SetupAll w (BaseURL desc) (Medias desc));
      destruct (Play w); reflexivity.
  - intros e He. unfold setup_events. rewrite He.
    exists (opening rtspURL u ++ sdp_events w desc). eexists.
    rewrite <- !app_assoc. reflexivity.
  - intros e He. unfold play_events. rewrite He.
    exists (opening rtspURL u ++ sdp_events w desc
            ++ [Call (Client_SetupAll (BaseURL desc) (Medias desc))]
            ++ setup_events w desc ++ [Call (Client_OnPacketRTPAny func1)]).
    rewrite <- !app_assoc. reflexivity.
Qed.

Lemma setup_and_play_failures_witness :
  snd (run Sample.degraded Sample.args) = Parked
  /\ logged SetupError (fst (run Sample.degraded Sample.args)) =
       [terminated ("Error setting up medias: " +:+ Error Sample.setup_refused)]
  /\ logged PlayError (fst (run Sample.degraded Sample.args)) =
       ["Error during PLAY: " +:+ Error Sample.play_refused +:+ nl].
Proof.
  destruct (setup_and_play_failures_are_logged_only Sample.degraded "rtspdump"
              "rtsp://localhost:8554/mystream" [] Sample.url
              (Sample.session Sample.url)) as (Hstop & _);
    [reflexivity | reflexivity | reflexivity |].
  split; [exact Hstop | split; vm_compute; reflexivity].
Defined.

(** ** Serialization errors *)

(** C7.  A serialization error costs the value that could not be
    serialized and nothing else.
    - Description: when [MarshalIndent] fails on the description, the
      error is logged in place of the description block, the next event is
      the [SetupAll] call, and [main] goes on to park.
    - Packet: when [MarshalIndent] fails on a packet, the callback logs the
      error, writes no block for that packet and returns; the packets
      delivered after it leave exactly the lines they leave when the
      failing packet is not delivered at all. *)
Theorem serialization_failure_is_local (w : World) :
  (forall prog rtspURL rest u desc e,
     ParseURL w rtspURL = inl u ->
     Start w the_client (Scheme u) (Host u) = None ->
     Describe w u = inl desc ->
     MarshalIndent_Session w desc "" " " = inr e ->
     snd (run w (prog :: rtspURL :: rest)) = Parked
     /\ logged SdpBlock (fst (run w (prog :: rtspURL :: rest))) = []
     /\ exists after,
          fst (run w (prog :: rtspURL :: rest)) =
            [Log StartingMsg ("Starting RTSP client for URL : " +:+ rtspURL +:+ nl);
             Call (Client_Start the_client (Scheme u) (Host u));
             Call (Client_Describe u);
             Log SdpMarshalError
               (terminated ("Error marshaling SDP description to JSON: " +:+ Error e));
             Call (Client_SetupAll (BaseURL desc) (Medias desc))]
            ++ after)
  /\ (forall medi forma pkt e later p,
        onPacketRTPAny p = Some func1 ->
        MarshalIndent_map w (packetInfo pkt) "" "  " = inr e ->
        main_func1 w medi forma pkt p =
          (add_events
             [Log RtpMarshalError
                (terminated ("Error marshaling RTP packet to JSON: " +:+ Error e))] p,
           inl tt)
        /\ exists out,
             deliver w later p = (add_events out p, inl tt)
             /\ deliver w ((medi, forma, pkt) :: later) p =
                  (add_events
                     ([Log RtpMarshalError
                         (terminated
                            ("Error marshaling RTP packet to JSON: " +:+ Error e))]
                      ++ out) p,
                   inl tt)).
Proof.
  split.
  - intros prog rtspURL rest u desc e HU HS HD HM.
    rewrite (run_described _ _ _ _ _ _ HU HS HD). cbn [fst snd].
    split; [reflexivity|]. split.
    + rewrite !logged_app, !logged_sdp_packets_events.
      unfold sdp_events, setup_events, play_events. rewrite HM.
      destruct (SetupAll w (BaseURL desc) (Medias desc)); destruct (Play w);
        reflexivity.
    + unfold sdp_events. rewrite HM. eexists. reflexivity.
  - intros medi forma pkt e later p Hcb HM.
    assert (Hpkt : packet_events w pkt =
                   [Log RtpMarshalError
                      (terminated ("Error marshaling RTP packet to JSON: " +:+ Error e))])
      by (unfold packet_events; now rewrite HM).
    split.
    + now rewrite main_func1_events, Hpkt.
    + exists (packets_events w later). split.
      * now apply deliver_registered.
      * rewrite (deliver_registered _ _ _ Hcb).
        unfold packets_events. cbn [flat_map snd]. now rewrite Hpkt.
Qed.

Lemma serialization_failure_witness :
  snd (run Sample.unserializable Sample.args) = Parked
  /\ logged SdpBlock (fst (run Sample.unserializable Sample.args)) = []
  /\ length (logged RtpMarshalError (fst (run Sample.unserializable Sample.args))) = 1%nat
  /\ length (logged RtpBlock (fst (run Sample.unserializable Sample.args))) = 2%nat.
Proof.
  destruct (serialization_failure_is_local Sample.unserializable) as [Hsdp _].
  destruct (Hsdp "rtspdump" "rtsp://localhost:8554/mystream" [] Sample.url
              (Sample.session Sample.url) Sample.unsupported)
    as (Hstop & Hnone & _); [reflexivity | reflexivity | reflexivity | reflexivity |].
  split; [exact Hstop | split; [exact Hnone | split; vm_compute; reflexivity]].
Defined.

(** ** Order of the output *)

Lemma logged_nil_not_in site tr text : logged site tr = [] -> ~ In (Log site text) tr.
Proof.
  induction tr as [|e tr IH]; intros Hnil Hin; [destruct Hin|].
  destruct Hin as [Heq|Hin].
  - subst e. unfold logged in Hnil. cbn in Hnil.
    destruct (decide (site = site)); [discriminate | congruence].
  - apply IH; [|exact Hin].
    unfold logged in *. cbn in Hnil.
    destruct e as [s t|c]; [destruct (decide (s = site)); [discriminate|]|]; exact Hnil.
Qed.

(** In [tr1 ++ tr2], when [tr1] has no line of [s2] and [tr2] none of [s1],
    every line of [s1] comes before every line of [s2]. *)
Lemma sites_in_order (tr1 tr2 : list Event) (s1 s2 : LogSite) :
  logged s2 tr1 = [] -> logged s1 tr2 = [] ->
  forall (i j : nat) (a b : string),
    (tr1 ++ tr2) !! i = Some (Log s1 a) ->
    (tr1 ++ tr2) !! j = Some (Log s2 b) ->
    (i < j)%nat.
Proof.
  intros H1 H2 i j a b Hi Hj.
  destruct (decide (i < length tr1)%nat) as [Hlt|Hge].
  - destruct (decide (j < length tr1)%nat) as [Hj1|Hj2]; [|lia].
    rewrite lookup_app_l in Hj by exact Hj1.
    apply list_elem_of_lookup_2, list_elem_of_In in Hj.
    now apply logged_nil_not_in in Hj.
  - rewrite lookup_app_r in Hi by lia.
    apply list_elem_of_lookup_2, list_elem_of_In in Hi.
    now apply logged_nil_not_in in Hi.
Qed.

(** C3, as the code has it.  On a run where the URL parses, Connect and
    Describe succeed and the description serializes, the description block
    is written exactly once, and before every packet block.  The callback
    is registered exactly once, after [SetupAll] and before [Play], through
    [OnPacketRTPAny]; every packet the library delivers goes through it,
    whatever its media and format: the callback lines of the trace are
    those of all delivered packets, in delivery order. *)
Theorem description_block_once_before_packets (w : World)
    (prog rtspURL : string) (rest : list string) (u : URL) (desc : Session)
    (descJSON : string) :
  ParseURL w rtspURL = inl u ->
  Start w the_client (Scheme u) (Host u) = None ->
  Describe w u = inl desc ->
  MarshalIndent_Session w desc "" " " = inl descJSON ->
  logged SdpBlock (fst (run w (prog :: rtspURL :: rest))) = [descJSON +:+ nl]
  /\ (forall (i j : nat) (a b : string),
        fst (run w (prog :: rtspURL :: rest)) !! i = Some (Log SdpBlock a) ->
        fst (run w (prog :: rtspURL :: rest)) !! j = Some (Log RtpBlock b) ->
        (i < j)%nat)
  /\ calls (fst (run w (prog :: rtspURL :: rest))) =
       [Client_Start the_client (Scheme u) (Host u);
        Client_Describe u;
        Client_SetupAll (BaseURL desc) (Medias desc);
        Client_OnPacketRTPAny func1;
        Client_Play]
  /\ filter (λ e, from_callback e = true) (fst (run w (prog :: rtspURL :: rest))) =
       packets_events w (arrivals_during_play w ++ arrivals_while_parked w).
Proof.
  intros HU HS HD HM. rewrite (run_described _ _ _ _ _ _ HU HS HD). cbn [fst].
  assert (Hsdp : sdp_events w desc =
                 [Log SdpHeader ("SDP in JSON:" +:+ nl); Log SdpBlock (descJSON +:+ nl)])
    by (unfold sdp_events; now rewrite HM).
  rewrite Hsdp. split; [|split; [|split]].
  - rewrite !logged_app, !logged_sdp_packets_events.
    unfold setup_events, play_events.
    destruct (SetupAll w (BaseURL desc) (Medias desc)); destruct (Play w); reflexivity.
  - rewrite (app_assoc (opening rtspURL u)).
    apply sites_in_order; [reflexivity|].
    rewrite !logged_app, !logged_sdp_packets_events.
    unfold setup_events, play_events.
    destruct (SetupAll w (BaseURL desc) (Medias desc)); destruct (Play w); reflexivity.
  - rewrite !calls_app, !calls_packets_events.
    unfold setup_events, play_events.
    destruct (SetupAll w (BaseURL desc) (Medias desc)); destruct (Play w); reflexivity.
  - rewrite !filter_app, !packets_events_from_callback, packets_events_app.
    unfold setup_events, play_events.
    destruct (SetupAll w (BaseURL desc) (Medias desc)); destruct (Play w); reflexivity.
Qed.

Lemma description_block_witness :
  length (logged SdpBlock (fst (run Sample.healthy Sample.args))) = 1%nat
  /\ length (logged RtpBlock (fst (run Sample.healthy Sample.args))) = 3%nat.
Proof.
  destruct (Sample.marshal_session (Sample.session Sample.url) "" " ")
    as [js|e] eqn:HM; [|discriminate].
  destruct (description_block_once_before_packets Sample.healthy "rtspdump"
              "rtsp://localhost:8554/mystream" [] Sample.url
              (Sample.session Sample.url) js) as (Hone & _);
    [reflexivity | reflexivity | reflexivity | exact HM |].
  split; [exact (f_equal length Hone) | vm_compute; reflexivity].
Defined.

(** C3, as the specification words it, fails: the URL is well formed and
    the server is reached, but DESCRIBE is refused; no description block
    is written and the callback is never registered. *)
Lemma description_block_counterexample :
  ParseURL Sample.describe_refused "rtsp://localhost:8554/mystream" = inl Sample.url
  /\ Start Sample.describe_refused the_client "rtsp" "localhost:8554" = None
  /\ logged SdpBlock (fst (run Sample.describe_refused Sample.args)) = []
  /\ calls (fst (run Sample.describe_refused Sample.args)) =
       [Client_Start the_client "rtsp" "localhost:8554"; Client_Describe Sample.url].
Proof. repeat split. Qed.

(** ** The end of [main] *)

Lemma run_returned w Args p :
  MainGo.main w Args start_state = (p, inl tt) -> snd (run w Args) = Exited 0.
Proof. unfold run, go_run. now intros ->. Qed.

Lemma run_parked_inv w Args :
  snd (run w Args) = Parked ->
  exists p, MainGo.main w Args start_state = (p, inr Parked).
Proof.
  unfold run, go_run.
  destruct (MainGo.main w Args start_state) as [p [[]|[code|msg|]]];
    cbn; try discriminate; eauto.
Qed.

(** C9.  [main] never returns.  On every run in which [Play] was issued,
    whatever [Play] answered, [main] ends parked in [select {}], and the
    process is still parked after every packet that arrives has been
    handled.  On the other runs the process ends by a fatal exit with
    status 1 (or by the panic on an empty [os.Args]); no run ends with
    status 0. *)
Theorem main_parks_forever_after_play (w : World) (Args : list string) :
  (forall p, MainGo.main w Args start_state <> (p, inl tt))
  /\ (In (Call Client_Play) (fst (run w Args)) ->
      (exists p, MainGo.main w Args start_state = (p, inr Parked))
      /\ snd (run w Args) = Parked)
  /\ (snd (run w Args) = Parked
      \/ snd (run w Args) = Exited 1
      \/ (Args = [] /\ snd (run w Args) = Panicked "index out of range")).
Proof.
  assert (Hends : snd (run w Args) = Parked
                  \/ (snd (run w Args) = Exited 1
                      /\ ~ In (Call Client_Play) (fst (run w Args)))
                  \/ (Args = [] /\ snd (run w Args) = Panicked "index out of range"
                      /\ ~ In (Call Client_Play) (fst (run w Args)))).
  { destruct (run_cases w Args)
      as [-> | [(prog & ->) | [(prog & url & rest & e & -> & HU)
         | [(prog & url & rest & u & e & -> & HU & HS)
         | [(prog & url & rest & u & e & -> & HU & HS & HD)
         | (prog & url & rest & u & desc & -> & HU & HS & HD)]]]]].
    - right; right. rewrite run_no_args. repeat split. intros [].
    - right; left. rewrite run_usage. split; [reflexivity|].
      intros [H|[]]; discriminate.
    - right; left. rewrite (run_parse_error _ _ _ _ _ HU). split; [reflexivity|].
      intros [H|[]]; discriminate.
    - right; left. rewrite (run_connect_error _ _ _ _ _ _ HU HS).
      split; [reflexivity|]. intros [H|[H|[H|[]]]]; discriminate.
    - right; left. rewrite (run_describe_error _ _ _ _ _ _ HU HS HD).
      split; [reflexivity|]. intros [H|[H|[H|[H|[]]]]]; discriminate.
    - left. now rewrite (run_described _ _ _ _ _ _ HU HS HD). }
  split; [|split].
  - intros p Hret. apply run_returned in Hret.
    destruct Hends as [H|[[H _]|(_ & H & _)]]; congruence.
  - intros Hplay.
    destruct Hends as [H|[[_ H]|(_ & _ & H)]]; [|contradiction..].
    split; [now apply run_parked_inv | exact H].
  - destruct Hends as [H|[[H _]|(H1 & H2 & _)]]; auto.
Qed.

(** ** The packet block *)

Lemma dom_packetInfo pkt : dom (packetInfo pkt) = list_to_set packet_fields.
Proof.
  unfold packetInfo, packet_fields.
  cbn [list_to_map foldr list_to_set fst snd uncurry].
  rewrite !dom_insert_L, dom_empty_L. reflexivity.
Qed.

(** C2.  The map the callback serializes has exactly the eleven keys
    version, sequence_number, timestamp, extension, padding, marker,
    payload_type, ssrc, csrc, extensions and extension_profile, each bound
    to the header field of the packet at hand; and the packet block the
    callback writes, when it writes one, is the serialization of that map
    (two-space indent) followed by a newline. *)
Theorem packet_block_has_the_eleven_fields (w : World)
    (medi : Media) (forma : Format) (pkt : Packet) (p : Proc) :
  dom (packetInfo pkt) = list_to_set packet_fields
  /\ size (packetInfo pkt) = 11%nat
  /\ packetInfo pkt !! "version" = Some (any_uint8 (Version pkt))
  /\ packetInfo pkt !! "sequence_number" = Some (any_uint16 (SequenceNumber pkt))
  /\ packetInfo pkt !! "timestamp" = Some (any_uint32 (Timestamp pkt))
  /\ packetInfo pkt !! "extension" = Some (any_bool (Extension_ pkt))
  /\ packetInfo pkt !! "padding" = Some (any_bool (Padding pkt))
  /\ packetInfo pkt !! "marker" = Some (any_bool (Marker pkt))
  /\ packetInfo pkt !! "payload_type" = Some (any_uint8 (PayloadType pkt))
  /\ packetInfo pkt !! "ssrc" = Some (any_uint32 (SSRC pkt))
  /\ packetInfo pkt !! "csrc" = Some (any_uint32s (CSRC pkt))
  /\ packetInfo pkt !! "extensions" = Some (any_Extensions (Extensions pkt))
  /\ packetInfo pkt !! "extension_profile" = Some (any_uint16 (ExtensionProfile pkt))
  /\ main_func1 w medi forma pkt p =
       (add_events
          match MarshalIndent_map w (packetInfo pkt) "" "  " with
          | inl packetJSON =>
              [Log RtpHeader ("Received RTP packet:" +:+ nl);
               Log RtpBlock (packetJSON +:+ nl)]
          | inr err =>
              [Log RtpMarshalError
                 (terminated ("Error marshaling RTP packet to JSON: " +:+ Error err))]
          end p,
        inl tt).
Proof.
  split; [apply dom_packetInfo|].
  split; [vm_compute; reflexivity|].
  repeat (split; [reflexivity|]).
  apply main_func1_events.
Qed.

(** ** Independence of the callback invocations *)

(** C8.  What the callback writes for a packet is [packet_events w pkt],
    a function of the packet (and of the serializer) alone: it is the same
    from any two process states and for any media and format, the
    invocation changes nothing in the process state but the trace, to
    which it only appends, and so two packets delivered in succession
    leave the lines of the first followed by the lines of the second, the
    latter being what the second packet leaves when delivered alone. *)
Theorem callback_output_depends_on_packet_only (w : World) (pkt : Packet) :
  (forall medi1 forma1 medi2 forma2 p1 p2,
     exists p1' p2',
       main_func1 w medi1 forma1 pkt p1 = (p1', inl tt)
       /\ main_func1 w medi2 forma2 pkt p2 = (p2', inl tt)
       /\ trace p1' = trace p1 ++ packet_events w pkt
       /\ trace p2' = trace p2 ++ packet_events w pkt
       /\ deferred p1' = deferred p1
       /\ onPacketRTPAny p1' = onPacketRTPAny p1)
  /\ (forall medi0 forma0 pkt0 medi forma p,
        onPacketRTPAny p = Some func1 ->
        exists p0 p01,
          deliver w [(medi, forma, pkt)] p = (p0, inl tt)
          /\ deliver w [(medi0, forma0, pkt0); (medi, forma, pkt)] p = (p01, inl tt)
          /\ trace p0 = trace p ++ packet_events w pkt
          /\ trace p01 = (trace p ++ packet_events w pkt0) ++ packet_events w pkt).
Proof.
  split.
  - intros medi1 forma1 medi2 forma2 p1 p2.
    exists (add_events (packet_events w pkt) p1), (add_events (packet_events w pkt) p2).
    rewrite !main_func1_events. repeat split.
  - intros medi0 forma0 pkt0 medi forma p Hcb.
    rewrite !(deliver_registered _ _ _ Hcb).
    eexists _, _. split; [reflexivity|]. split; [reflexivity|].
    unfold packets_events. cbn [flat_map snd trace add_events].
    rewrite !app_nil_r. split; [reflexivity | now rewrite app_assoc].
Qed.

(** ** The two variants *)

(** C10.  From the same world and arguments, [part_000] and [main.go] do
    the same up to the end of [part_000].  When [part_000] stops (usage,
    parse error, connection error, DESCRIBE error, or the panic on an empty
    [os.Args]), [main.go] stops the same way in the same process state:
    same trace, hence same lines and same calls with the same client
    configuration.  When [part_000] reaches its end, [main.go] has done,
    so far, exactly the same, and goes on with [SetupAll].  Every [Start]
    either variant issues is made with 5-second read and write timeouts
    and any-port enabled. *)
Theorem variants_agree_up_to_description (w : World) (Args : list string) :
  match Part000.main w Args start_state with
  | (p, inr stop) => MainGo.main w Args start_state = (p, inr stop)
  | (p, inl tt) =>
      exists p' desc tail,
        MainGo.main w Args start_state = (p', inr Parked)
        /\ trace p' =
             trace p ++ Call (Client_SetupAll (BaseURL desc) (Medias desc)) :: tail
        /\ deferred p' = deferred p
  end
  /\ (forall c scheme host,
        In (Call (Client_Start c scheme host))
           (trace (fst (Part000.main w Args start_state))) ->
        c = {| ReadTimeout := 5 * 1000000000;
               WriteTimeout := 5 * 1000000000;
               AnyPortEnable := true |}).
Proof.
  destruct Args as [|prog [|rtspURL rest]].
  - split; [reflexivity | intros c scheme host []].
  - split; [reflexivity | intros c scheme host [H|[]]; discriminate].
  - unfold MainGo.main, Part000.main, mbind, Prog_bind. simpl.
    destruct (ParseURL w rtspURL) as [u|e]; simpl.
    2: { split; [reflexivity | intros c scheme host [H|[]]; discriminate]. }
    destruct (Start w _ (Scheme u) (Host u)) as [e|]; simpl.
    { split; [reflexivity|].
      intros c scheme host [H|[H|[H|[]]]]; now inversion H. }
    destruct (Describe w u) as [desc|e]; simpl.
    2: { split; [reflexivity|].
         intros c scheme host [H|[H|[H|[H|[]]]]]; now inversion H. }
    split.
    + unfold client_Play, mbind, Prog_bind.
      destruct (MarshalIndent_Session w desc "" " ") as [js|e1];
        destruct (SetupAll w (BaseURL desc) (Medias desc)) as [e2|];
        simpl; rewrite deliver_registered by reflexivity; simpl;
        destruct (Play w) as [e3|]; simpl;
        eexists _, desc, _; (split; [reflexivity|]);
        simpl; rewrite <- ?app_assoc; simpl; split; reflexivity.
    + destruct (MarshalIndent_Session w desc "" " ") as [js|e1]; simpl;
        intros c scheme host H;
        repeat (destruct H as [H|H]; [now inversion H|]); destruct H.
Qed.

(** Where [part_000] ends: [main] returns, the deferred [Close] runs and
    the process exits with status 0. *)
Lemma run_part_000_described w prog rtspURL rest u desc :
  ParseURL w rtspURL = inl u ->
  Start w the_client (Scheme u) (Host u) = None ->
  Describe w u = inl desc ->
  run_part_000 w (prog :: rtspURL :: rest) =
    (opening rtspURL u ++ sdp_events w desc ++ [Call Client_Close], Exited 0).
Proof.
  intros HU HS HD. unfold_run. rewrite HU, HS. simpl. rewrite HD.
  unfold sdp_events.
  destruct (MarshalIndent_Session w desc "" " ") as [js|e]; simpl;
    tidy_lines; reflexivity.
Qed.

(** * Further properties of the two programs *)

(** ** More on traces *)

Ltac by_run_cases w Args :=
  destruct (run_cases w Args)
    as [-> | [(prog & ->) | [(prog & rtspURL & rest & e & -> & HU)
       | [(prog & rtspURL & rest & u & e & -> & HU & HS)
       | [(prog & rtspURL & rest & u & e & -> & HU & HS & HD)
       | (prog & rtspURL & rest & u & desc & -> & HU & HS & HD)]]]]];
  [ rewrite ?run_no_args
  | rewrite ?run_usage
  | rewrite ?(run_parse_error _ _ _ _ _ HU)
  | rewrite ?(run_connect_error _ _ _ _ _ _ HU HS)
  | rewrite ?(run_describe_error _ _ _ _ _ _ HU HS HD)
  | rewrite ?(run_described _ _ _ _ _ _ HU HS HD) ].

Ltac split_oracles w desc :=
  unfold sdp_events, setup_events, play_events;
  destruct (MarshalIndent_Session w desc "" " ");
  destruct (SetupAll w (BaseURL desc) (Medias desc));
  destruct (Play w).

Lemma packets_events_callback_only w ds :
  Forall (λ e, from_callback e = true) (packets_events w ds).
Proof.
  induction ds as [|d ds IH]; [constructor|].
  unfold packets_events in *. cbn [flat_map]. apply Forall_app. split; [|exact IH].
  unfold packet_events.
  destruct (MarshalIndent_map w (packetInfo d.2) "" "  "); repeat constructor.
Qed.

(** A reading of the trace that skips the callback lines finds nothing in
    the lines of the packets. *)
Lemma omap_callback_only {A} (f : Event -> option A) (tr : list Event) :
  (forall e, from_callback e = true -> f e = None) ->
  Forall (λ e, from_callback e = true) tr ->
  omap f tr = [].
Proof.
  intros Hf Htr. induction Htr as [|e tr He _ IH]; [reflexivity|].
  cbn. now rewrite (Hf e He).
Qed.

Lemma logged_packets_events site w ds :
  from_callback (Log site "") = false -> logged site (packets_events w ds) = [].
Proof.
  intros Hsite. apply omap_callback_only; [|apply packets_events_callback_only].
  intros [s t|c] He; [|reflexivity].
  destruct (decide (s = site)) as [->|]; [|reflexivity].
  destruct site; cbn in *; congruence.
Qed.

Lemma filter_callback_only (f : Event -> bool) (tr : list Event) :
  (forall e, from_callback e = true -> f e = false) ->
  Forall (λ e, from_callback e = true) tr ->
  filter (λ e, f e = true) tr = [].
Proof.
  intros Hf Htr. induction Htr as [|e tr He _ IH]; [reflexivity|].
  rewrite filter_cons_False; [exact IH|]. rewrite (Hf e He). discriminate.
Qed.

Lemma fatal_packets_events w ds :
  filter (λ e, is_fatal e = true) (packets_events w ds) = [].
Proof.
  apply filter_callback_only; [|apply packets_events_callback_only].
  intros [[] t|c]; cbn; congruence.
Qed.

(** ** The connection is never closed by [main.go] *)

Lemma final_state_connected w prog rtspURL rest u :
  ParseURL w rtspURL = inl u ->
  Start w the_client (Scheme u) (Host u) = None ->
  deferred (final_state w (prog :: rtspURL :: rest)) = [Client_Close].
Proof.
  intros HU HS. unfold final_state. unfold_run. rewrite HU, HS. simpl.
  destruct (Describe w u) as [desc|e]; [|reflexivity].
  unfold client_Play, mbind, Prog_bind.
  destruct (MarshalIndent_Session w desc "" " ");
    destruct (SetupAll w (BaseURL desc) (Medias desc));
    simpl; rewrite deliver_registered by reflexivity; simpl;
    destruct (Play w); simpl;
    rewrite deliver_registered by reflexivity; reflexivity.
Qed.

(** X1.  [main.go] never closes the client.  On no run does the trace
    hold a [Close] call: the deferred [client.Close()] cannot run, because
    [main] leaves only through [os.Exit] (which skips deferred calls) or
    parks.  Once the connection is open, the process is left with the
    [Close] still waiting on the defer stack. *)
Theorem main_go_never_closes_the_client (w : World) (Args : list string) :
  existsb is_close (calls (fst (run w Args))) = false
  /\ (forall prog rtspURL rest u,
        Args = prog :: rtspURL :: rest ->
        ParseURL w rtspURL = inl u ->
        Start w the_client (Scheme u) (Host u) = None ->
        deferred (final_state w Args) = [Client_Close]).
Proof.
  split.
  - by_run_cases w Args; cbn [fst]; try reflexivity.
    rewrite !calls_app, !calls_packets_events.
    split_oracles w desc; reflexivity.
  - intros prog rtspURL rest u -> HU HS.
    exact (final_state_connected w prog rtspURL rest u HU HS).
Qed.

(** ** The session calls come in one order *)

(** X2.  On every run the calls on the client are an initial part of
    Start, Describe, SetupAll, OnPacketRTPAny, Play, cut at one of three
    places: nothing (bad invocation), [Start] alone (connection error),
    [Start] and [Describe] (DESCRIBE error), or all five.  The runs with
    all five calls are exactly the runs that end parked; every shorter
    run ends by a fatal exit or by the panic on an empty [os.Args].
    [Start] gets the scheme and host of the URL parsed from [os.Args[1]],
    [Describe] gets that URL, and [SetupAll] gets the base URL and the
    medias of the description [Describe] returned. *)
Theorem session_calls_come_in_order (w : World) (Args : list string) :
  (snd (run w Args) <> Parked /\ calls (fst (run w Args)) = [])
  \/ (exists rtspURL u,
        Args !! 1%nat = Some rtspURL /\ ParseURL w rtspURL = inl u
        /\ snd (run w Args) = Exited 1
        /\ calls (fst (run w Args)) = [Client_Start the_client (Scheme u) (Host u)])
  \/ (exists rtspURL u,
        Args !! 1%nat = Some rtspURL /\ ParseURL w rtspURL = inl u
        /\ snd (run w Args) = Exited 1
        /\ calls (fst (run w Args)) =
             [Client_Start the_client (Scheme u) (Host u); Client_Describe u])
  \/ (exists rtspURL u desc,
        Args !! 1%nat = Some rtspURL /\ ParseURL w rtspURL = inl u
        /\ Describe w u = inl desc
        /\ snd (run w Args) = Parked
        /\ calls (fst (run w Args)) =
             [Client_Start the_client (Scheme u) (Host u);
              Client_Describe u;
              Client_SetupAll (BaseURL desc) (Medias desc);
              Client_OnPacketRTPAny func1;
              Client_Play]).
Proof.
  by_run_cases w Args; cbn [fst snd].
  - left. split; [discriminate | reflexivity].
  - left. split; [discriminate | reflexivity].
  - left. split; [discriminate | reflexivity].
  - right; left. exists rtspURL, u. now repeat split.
  - right; right; left. exists rtspURL, u. now repeat split.
  - right; right; right. exists rtspURL, u, desc.
    do 4 (split; [easy|]).
    rewrite !calls_app, !calls_packets_events.
    split_oracles w desc; reflexivity.
Qed.

(** ** Only [os.Args[1]] matters *)

(** X3.  Once a URL argument is given, the program name and every
    further argument are ignored: two invocations with the same first
    argument leave the same trace and end the same way. *)
Theorem further_arguments_are_ignored (w : World)
    (prog prog' rtspURL : string) (rest rest' : list string) :
  run w (prog :: rtspURL :: rest) = run w (prog' :: rtspURL :: rest').
Proof.
  destruct (ParseURL w rtspURL) as [u|e] eqn:HU.
  2: { now rewrite (run_parse_error w prog rtspURL rest e HU),
                   (run_parse_error w prog' rtspURL rest' e HU). }
  destruct (Start w the_client (Scheme u) (Host u)) as [e|] eqn:HS.
  { now rewrite (run_connect_error w prog rtspURL rest u e HU HS),
                (run_connect_error w prog' rtspURL rest' u e HU HS). }
  destruct (Describe w u) as [desc|e] eqn:HD.
  - now rewrite (run_described w prog rtspURL rest u desc HU HS HD),
                (run_described w prog' rtspURL rest' u desc HU HS HD).
  - now rewrite (run_describe_error w prog rtspURL rest u e HU HS HD),
                (run_describe_error w prog' rtspURL rest' u e HU HS HD).
Qed.

(** ** [part_000] as a process *)

(** A run of [part_000] either reaches the end of [main], or is the run
    of [main.go] from the same world and arguments. *)
Lemma run_part_000_cases w Args :
  (exists prog rtspURL rest u desc,
     Args = prog :: rtspURL :: rest
     /\ ParseURL w rtspURL = inl u
     /\ Start w the_client (Scheme u) (Host u) = None
     /\ Describe w u = inl desc
     /\ run_part_000 w Args =
          (opening rtspURL u ++ sdp_events w desc ++ [Call Client_Close], Exited 0))
  \/ (run_part_000 w Args = run w Args
      /\ snd (run w Args) <> Parked
      /\ snd (run w Args) <> Exited 0
      /\ existsb is_close (calls (fst (run w Args))) = false
      /\ filter (λ e, from_callback e = true) (fst (run w Args)) = []).
Proof.
  destruct (run_cases w Args)
    as [-> | [(prog & ->) | [(prog & rtspURL & rest & e & -> & HU)
       | [(prog & rtspURL & rest & u & e & -> & HU & HS)
       | [(prog & rtspURL & rest & u & e & -> & HU & HS & HD)
       | (prog & rtspURL & rest & u & desc & -> & HU & HS & HD)]]]]].
  - right. now rewrite run_no_args.
  - right. rewrite run_usage. repeat split; try discriminate.
    unfold_run. unfold log_Output. now tidy_lines.
  - right. rewrite (run_parse_error _ _ _ _ _ HU). repeat split; try discriminate.
    unfold_run. now rewrite HU.
  - right. rewrite (run_connect_error _ _ _ _ _ _ HU HS).
    repeat split; try discriminate.
    unfold_run. rewrite HU, HS. simpl. now tidy_lines.
  - right. rewrite (run_describe_error _ _ _ _ _ _ HU HS HD).
    repeat split; try discriminate.
    unfold_run. rewrite HU, HS. simpl. rewrite HD. simpl. now tidy_lines.
  - left. exists prog, rtspURL, rest, u, desc. repeat split; try assumption.
    now apply run_part_000_described.
Qed.

(** X4.  [part_000] always ends, and closes the client exactly when it
    reaches the end of [main].  Either DESCRIBE was answered: the trace is
    the shared opening, the description output and then the deferred
    [Close], the calls are Start, Describe, Close, and the exit status is
    0.  Or the run stopped earlier: it is then, event for event and with
    the same exit, the run of [main.go], it does not end with status 0
    and there is no [Close].  No run of [part_000] is parked and none
    writes a packet line. *)
Theorem part_000_ends_and_closes_once (w : World) (Args : list string) :
  snd (run_part_000 w Args) <> Parked
  /\ filter (λ e, from_callback e = true) (fst (run_part_000 w Args)) = []
  /\ ((exists prog rtspURL rest u desc,
         Args = prog :: rtspURL :: rest
         /\ ParseURL w rtspURL = inl u
         /\ Describe w u = inl desc
         /\ run_part_000 w Args =
              (opening rtspURL u ++ sdp_events w desc ++ [Call Client_Close], Exited 0)
         /\ calls (fst (run_part_000 w Args)) =
              [Client_Start the_client (Scheme u) (Host u);
               Client_Describe u;
               Client_Close])
      \/ (run_part_000 w Args = run w Args
          /\ snd (run_part_000 w Args) <> Exited 0
          /\ existsb is_close (calls (fst (run_part_000 w Args))) = false)).
Proof.
  destruct (run_part_000_cases w Args)
    as [(prog & rtspURL & rest & u & desc & -> & HU & HS & HD & Hrun)
       | (Hrun & Hpark & Hzero & Hclose & Hcb)].
  - rewrite Hrun. cbn [fst snd]. split; [discriminate|]. split.
    + unfold sdp_events. now destruct (MarshalIndent_Session w desc "" " ").
    + left. exists prog, rtspURL, rest, u, desc. repeat split; try assumption.
      unfold sdp_events. now destruct (MarshalIndent_Session w desc "" " ").
  - rewrite Hrun. split; [exact Hpark|]. split; [exact Hcb|]. right. now repeat split.
Qed.

(** ** Every log line is a line *)

Lemma ends_with_newline_app_r (a b : string) :
  ends_with_newline b = true -> ends_with_newline (a +:+ b) = true.
Proof.
  intros Hb. induction a as [|c a IH]; [exact Hb|].
  change (ends_with_newline (String c (a +:+ b)) = true).
  destruct (a +:+ b) as [|c' s] eqn:E; [discriminate IH | exact IH].
Qed.

Ltac solve_newline :=
  repeat first
    [ apply ends_with_newline_nl | apply terminated_ends | apply ends_with_newline_app_r ].

Lemma newline_packets_events w ds :
  forallb newline_terminated (packets_events w ds) = true.
Proof.
  induction ds as [|d ds IH]; [reflexivity|].
  unfold packets_events in *. cbn [flat_map]. rewrite forallb_app, IH, andb_true_r.
  unfold packet_events.
  destruct (MarshalIndent_map w (packetInfo d.2) "" "  "); cbn [forallb newline_terminated];
    rewrite ?ends_with_newline_nl, ?terminated_ends; reflexivity.
Qed.

Lemma newline_opening rtspURL u : forallb newline_terminated (opening rtspURL u) = true.
Proof.
  cbn [opening forallb newline_terminated].
  rewrite ends_with_newline_app_r by solve_newline. reflexivity.
Qed.

Lemma newline_sdp_events w desc : forallb newline_terminated (sdp_events w desc) = true.
Proof.
  unfold sdp_events.
  destruct (MarshalIndent_Session w desc "" " "); cbn [forallb newline_terminated];
    rewrite ?ends_with_newline_nl, ?terminated_ends; reflexivity.
Qed.

(** X5.  Every line either program writes to the log ends in a newline,
    whatever the URL, the error texts and the serialized values are: the
    lines of a run can be told apart even though the PLAY error format
    carries its own newline and the others do not. *)
Theorem every_log_line_ends_in_newline (w : World) (Args : list string) :
  forallb newline_terminated (fst (run w Args)) = true
  /\ forallb newline_terminated (fst (run_part_000 w Args)) = true.
Proof.
  assert (Hmain : forallb newline_terminated (fst (run w Args)) = true).
  { by_run_cases w Args; cbn [fst]; try reflexivity.
    - cbn [forallb newline_terminated].
      rewrite ends_with_newline_app_r by solve_newline. reflexivity.
    - cbn [forallb newline_terminated]. now rewrite terminated_ends.
    - cbn [forallb newline_terminated].
      rewrite terminated_ends, ends_with_newline_app_r by solve_newline.
      reflexivity.
    - rewrite forallb_app, newline_opening. cbn [forallb newline_terminated].
      now rewrite terminated_ends.
    - rewrite !forallb_app, newline_opening, newline_sdp_events,
        !newline_packets_events.
      unfold setup_events, play_events.
      destruct (SetupAll w (BaseURL desc) (Medias desc)); destruct (Play w);
        cbn [forallb newline_terminated andb];
        rewrite ?terminated_ends, ?ends_with_newline_app_r by solve_newline;
        reflexivity. }
  split; [exact Hmain|].
  destruct (run_part_000_cases w Args)
    as [(prog & rtspURL & rest & u & desc & -> & HU & HS & HD & Hrun) | (Hrun & _)].
  - rewrite Hrun. cbn [fst].
    now rewrite !forallb_app, newline_opening, newline_sdp_events.
  - now rewrite Hrun.
Qed.

(** ** Blocks and their headers *)

Lemma headed_app hdr block header tr1 tr2 :
  headed hdr block header tr1 -> headed hdr block header tr2 ->
  headed hdr block header (tr1 ++ tr2).
Proof.
  intros H1 H2 i text Hi.
  destruct (decide (i < length tr1)%nat) as [Hlt|Hge].
  - rewrite lookup_app_l in Hi by exact Hlt.
    destruct (H1 i text Hi) as (j & -> & Hj). exists j. split; [reflexivity|].
    rewrite lookup_app_l by lia. exact Hj.
  - rewrite lookup_app_r in Hi by lia.
    destruct (H2 _ text Hi) as (j & Heq & Hj).
    exists (length tr1 + j)%nat. split; [lia|].
    rewrite lookup_app_r by lia.
    replace (length tr1 + j - length tr1)%nat with j by lia. exact Hj.
Qed.

Lemma headed_none hdr block header tr :
  logged block tr = [] -> headed hdr block header tr.
Proof.
  intros Hnone i text Hi.
  apply list_elem_of_lookup_2, list_elem_of_In in Hi.
  now apply logged_nil_not_in in Hi.
Qed.

Lemma headed_sdp_events w desc :
  headed SdpHeader SdpBlock ("SDP in JSON:" +:+ nl) (sdp_events w desc).
Proof.
  unfold sdp_events.
  destruct (MarshalIndent_Session w desc "" " "); [|now apply headed_none].
  intros [|[|i]] text Hi; try discriminate. exists 0%nat. now split.
Qed.

Lemma headed_run_sdp w Args :
  headed SdpHeader SdpBlock ("SDP in JSON:" +:+ nl) (fst (run w Args)).
Proof.
  by_run_cases w Args; cbn [fst]; try (now apply headed_none).
  repeat apply headed_app;
    try apply headed_sdp_events; apply headed_none;
    rewrite ?logged_sdp_packets_events; try reflexivity.
  - unfold setup_events. now destruct (SetupAll w (BaseURL desc) (Medias desc)).
  - unfold play_events. now destruct (Play w).
Qed.

(** ** Blocks and their headers under interleaving *)

Lemma merges_prefix {A : Type} (ts1 : list (list A)) (p t : list A)
    (ts2 : list (list A)) (tr : list A) :
  merges (ts1 ++ t :: ts2) tr -> merges (ts1 ++ (p ++ t) :: ts2) (p ++ tr).
Proof.
  intros H. induction p as [|x p IH]; [exact H|].
  cbn [app]. now apply merges_take.
Qed.

(** Running the sequences [ts] one after the other is an interleaving. *)
Lemma merges_in_turn {A : Type} (ts : list (list A)) :
  forall (ts1 ts2 : list (list A)) (tr : list A),
    merges (ts1 ++ map (λ _, []) ts ++ ts2) tr ->
    merges (ts1 ++ ts ++ ts2) (concat ts ++ tr).
Proof.
  induction ts as [|t ts IH]; intros ts1 ts2 tr H; [exact H|].
  cbn [concat app map] in *. rewrite <- app_assoc.
  rewrite <- (app_nil_r t) at 1. apply merges_prefix.
  change (merges (ts1 ++ [[]] ++ ts ++ ts2) (concat ts ++ tr)).
  rewrite app_assoc. apply IH. rewrite <- app_assoc. exact H.
Qed.

Lemma merges_Forall {A : Type} (P : A -> Prop) (ts : list (list A)) (tr : list A) :
  merges ts tr -> Forall (Forall P) ts -> Forall P tr.
Proof.
  induction 1 as [ts _ | ts1 x t ts2 tr _ IH]; intros Hts; [constructor|].
  apply Forall_app in Hts as [H1 H2].
  apply Forall_cons in H2 as [Hxt H2]. apply Forall_cons in Hxt as [Hx Ht].
  constructor; [exact Hx|].
  apply IH, Forall_app. split; [exact H1 | now constructor].
Qed.

Lemma sum_app (l1 l2 : list Z) :
  foldr Z.add 0 (l1 ++ l2) = foldr Z.add 0 l1 + foldr Z.add 0 l2.
Proof. induction l1 as [|x l1 IH]; cbn [foldr app]; lia. Qed.

Lemma lowest_nonpos tr : lowest tr <= 0.
Proof. destruct tr; cbn [lowest]; lia. Qed.

Lemma sum_lowest_nonpos (ts : list (list Event)) : foldr Z.add 0 (map lowest ts) <= 0.
Proof.
  induction ts as [|t ts IH]; cbn [map foldr]; [lia|].
  pose proof (lowest_nonpos t). lia.
Qed.

(** An interleaving goes no lower than its sequences do together. *)
Lemma lowest_merges (ts : list (list Event)) (tr : list Event) :
  merges ts tr -> foldr Z.add 0 (map lowest ts) <= lowest tr.
Proof.
  induction 1 as [ts _ | ts1 x t ts2 tr _ IH]; [apply sum_lowest_nonpos|].
  rewrite map_app, sum_app in *. cbn [map foldr lowest] in *.
  pose proof (sum_lowest_nonpos ts1). pose proof (sum_lowest_nonpos ts2).
  pose proof (lowest_nonpos t). lia.
Qed.

Lemma lowest_take (tr : list Event) :
  forall k, lowest tr <= foldr Z.add 0 (map weight (take k tr)).
Proof.
  induction tr as [|e tr IH]; intros [|k]; cbn [take map foldr lowest]; try lia.
  specialize (IH k). lia.
Qed.

Lemma weight_counts (tr : list Event) :
  foldr Z.add 0 (map weight tr) =
  Z.of_nat (length (logged RtpHeader tr)) - Z.of_nat (length (logged RtpBlock tr)).
Proof.
  induction tr as [|e tr IH]; [reflexivity|].
  cbn [map foldr]. rewrite IH.
  destruct e as [[] text|c]; simpl; lia.
Qed.

(** A sequence that never goes below 0 has, at every point, at least as
    many header lines as blocks. *)
Lemma balanced_prefixes (tr : list Event) :
  0 <= lowest tr ->
  forall k, (length (logged RtpBlock (take k tr))
             <= length (logged RtpHeader (take k tr)))%nat.
Proof.
  intros Hlow k. pose proof (lowest_take tr k) as Hk.
  rewrite weight_counts in Hk. lia.
Qed.

Lemma lowest_packet_events w pkt : lowest (packet_events w pkt) = 0.
Proof.
  unfold packet_events.
  now destruct (MarshalIndent_map w (packetInfo pkt) "" "  ").
Qed.

Lemma lowest_invocations w (ds : list Delivery) :
  foldr Z.add 0 (map lowest (map (λ d : Delivery, packet_events w d.2) ds)) = 0.
Proof.
  induction ds as [|d ds IH]; [reflexivity|].
  cbn [map foldr]. now rewrite lowest_packet_events, IH.
Qed.

Lemma lowest_main_described w rtspURL u desc :
  lowest (main_until_registration w rtspURL u desc ++ main_after_registration w) = 0.
Proof.
  unfold main_until_registration, main_after_registration.
  split_oracles w desc; reflexivity.
Qed.

Lemma logged_nil_Forall site (tr : list Event) :
  Forall (λ e, forall text, e <> Log site text) tr -> logged site tr = [].
Proof.
  induction 1 as [|e tr He _ IH]; [reflexivity|].
  destruct e as [s text|c]; [|exact IH].
  unfold logged. cbn.
  destruct (decide (s = site)) as [->|]; [now destruct (He text) | exact IH].
Qed.

Lemma no_sdp_block_after_registration w :
  Forall (Forall (λ e, forall text, e <> Log SdpBlock text))
    (main_after_registration w
     :: map (λ d : Delivery, packet_events w d.2)
          (arrivals_during_play w ++ arrivals_while_parked w)).
Proof.
  constructor.
  - unfold main_after_registration, play_events.
    destruct (Play w); repeat constructor; discriminate.
  - apply Forall_map, Forall_forall. intros d _. unfold packet_events.
    destruct (MarshalIndent_map w (packetInfo d.2) "" "  ");
      repeat constructor; discriminate.
Qed.

(** The trace of [run] is one of the concurrent logs. *)
Lemma run_is_a_concurrent_log w Args : concurrent_log w Args (fst (run w Args)).
Proof.
  destruct (run_cases w Args)
    as [-> | [(prog & ->) | [(prog & rtspURL & rest & e & -> & HU)
       | [(prog & rtspURL & rest & u & e & -> & HU & HS)
       | [(prog & rtspURL & rest & u & e & -> & HU & HS & HD)
       | (prog & rtspURL & rest & u & desc & -> & HU & HS & HD)]]]]].
  - apply log_stopped. now rewrite run_no_args.
  - apply log_stopped. now rewrite run_usage.
  - apply log_stopped. now rewrite (run_parse_error _ _ _ _ _ HU).
  - apply log_stopped. now rewrite (run_connect_error _ _ _ _ _ _ HU HS).
  - apply log_stopped. now rewrite (run_describe_error _ _ _ _ _ _ HU HS HD).
  - rewrite (run_described _ _ _ _ _ _ HU HS HD). cbn [fst].
    set (early := map (λ d : Delivery, packet_events w d.2) (arrivals_during_play w)).
    set (late := map (λ d : Delivery, packet_events w d.2) (arrivals_while_parked w)).
    set (rest_of_main := play_events w
           ++ [Log StreamingMsg ("Streaming... Press Ctrl+C to exit." +:+ nl)]).
    replace (opening rtspURL u ++ sdp_events w desc
             ++ [Call (Client_SetupAll (BaseURL desc) (Medias desc))]
             ++ setup_events w desc
             ++ [Call (Client_OnPacketRTPAny func1); Call Client_Play]
             ++ packets_events w (arrivals_during_play w)
             ++ play_events w
             ++ [Log StreamingMsg ("Streaming... Press Ctrl+C to exit." +:+ nl)]
             ++ packets_events w (arrivals_while_parked w))
      with (main_until_registration w rtspURL u desc
            ++ [Call Client_Play] ++ concat early ++ rest_of_main ++ concat late ++ []).
    2: { unfold main_until_registration, rest_of_main, early, late, packets_events.
         rewrite !flat_map_concat_map, app_nil_r, <- !app_assoc. reflexivity. }
    apply (log_described w _ prog rtspURL rest u desc); try assumption; try reflexivity.
    rewrite map_app. fold early late.
    change (main_after_registration w) with ([Call Client_Play] ++ rest_of_main).
    apply (merges_prefix []).
    apply (merges_in_turn early [rest_of_main] late).
    rewrite <- (app_nil_r rest_of_main) at 1.
    apply (merges_prefix [] rest_of_main [] (map (λ _, []) early ++ late)).
    replace (map (λ _ : list Event, []) early ++ late)
      with (map (λ _ : list Event, []) early ++ late ++ [])
      by now rewrite app_nil_r.
    apply (merges_in_turn late ([] :: map (λ _, []) early) [] []).
    apply merges_done.
    constructor; [reflexivity|].
    rewrite app_nil_r. apply Forall_app. split; apply Forall_map, Forall_forall; auto.
Qed.

(** X6.  However the lines of the callback invocations interleave with
    each other and with what [main] writes after registering the callback,
    every packet block has its own "Received RTP packet:" line before it:
    at every point of the log at least as many such lines as blocks have
    been written.  The description block, written before the callback is
    registered, comes right after the line "SDP in JSON:". *)
Theorem blocks_come_after_their_headers (w : World) (Args : list string)
    (tr : list Event) :
  concurrent_log w Args tr ->
  (forall k, (length (logged RtpBlock (take k tr))
              <= length (logged RtpHeader (take k tr)))%nat)
  /\ (forall (i : nat) (text : string),
        tr !! i = Some (Log SdpBlock text) ->
        exists j, i = S j /\ tr !! j = Some (Log SdpHeader ("SDP in JSON:" +:+ nl))).
Proof.
  intros [prog rtspURL rest u desc tl -> HU HS HD Hm | Hstop].
  - split.
    + apply balanced_prefixes.
      pose proof (merges_prefix [] (main_until_registration w rtspURL u desc)
                    _ _ _ Hm) as Hall.
      apply lowest_merges in Hall. cbn [map foldr app] in Hall.
      rewrite lowest_main_described, lowest_invocations in Hall. lia.
    + change (headed SdpHeader SdpBlock ("SDP in JSON:" +:+ nl)
                (main_until_registration w rtspURL u desc ++ tl)).
      unfold main_until_registration.
      repeat apply headed_app; try apply headed_sdp_events;
        apply headed_none; try reflexivity.
      * unfold setup_events. now destruct (SetupAll w (BaseURL desc) (Medias desc)).
      * apply logged_nil_Forall.
        exact (merges_Forall _ _ _ Hm (no_sdp_block_after_registration w)).
  - split.
    + apply balanced_prefixes. revert Hstop.
      by_run_cases w Args; cbn [fst snd]; intros Hstop;
        try (now contradiction Hstop); cbn; lia.
    + exact (headed_run_sdp w Args).
Qed.

Lemma interleaved_log_witness :
  (length (logged RtpBlock (take 11 Sample.interleaved))
   <= length (logged RtpHeader (take 11 Sample.interleaved)))%nat.
Proof.
  assert (Hlog : concurrent_log Sample.healthy Sample.args Sample.interleaved).
  { apply (log_described Sample.healthy Sample.args "rtspdump"
             "rtsp://localhost:8554/mystream" [] Sample.url
             (Sample.session Sample.url)); try reflexivity.
    vm_compute.
    apply (merges_take []). apply (merges_take [_]). apply (merges_take [_; _]).
    apply (merges_take [_]). apply (merges_take [_; _]). apply (merges_take []).
    apply (merges_take [_; _; _]). apply (merges_take [_; _; _]).
    apply merges_done. repeat constructor. }
  exact (proj1 (blocks_come_after_their_headers _ _ _ Hlog) 11%nat).
Defined.

(** ** Every delivered packet leaves its mark *)

Lemma count_packet_events w pkt :
  (length (logged RtpBlock (packet_events w pkt))
   + length (logged RtpMarshalError (packet_events w pkt)) = 1)%nat
  /\ length (logged RtpHeader (packet_events w pkt)) =
     length (logged RtpBlock (packet_events w pkt)).
Proof.
  unfold packet_events.
  destruct (MarshalIndent_map w (packetInfo pkt) "" "  "); split; reflexivity.
Qed.

Lemma count_packets_events w ds :
  (length (logged RtpBlock (packets_events w ds))
   + length (logged RtpMarshalError (packets_events w ds)) = length ds)%nat
  /\ length (logged RtpHeader (packets_events w ds)) =
     length (logged RtpBlock (packets_events w ds)).
Proof.
  induction ds as [|d ds [IH1 IH2]]; [split; reflexivity|].
  unfold packets_events in *. cbn [flat_map length].
  rewrite !logged_app, !length_app.
  destruct (count_packet_events w d.2) as [H1 H2]. lia.
Qed.

(** X7.  On a run of [main.go] that ends parked, every packet the library
    delivered is accounted for by exactly one line: the number of packet
    blocks plus the number of packet serialization errors is the number of
    packets delivered, and there are as many "Received RTP packet:" lines
    as blocks.  No packet is dropped silently and none is printed twice. *)
Theorem every_delivered_packet_is_accounted_for (w : World) (Args : list string) :
  snd (run w Args) = Parked ->
  (length (logged RtpBlock (fst (run w Args)))
   + length (logged RtpMarshalError (fst (run w Args)))
   = length (arrivals_during_play w ++ arrivals_while_parked w))%nat
  /\ length (logged RtpHeader (fst (run w Args))) =
     length (logged RtpBlock (fst (run w Args))).
Proof.
  by_run_cases w Args; cbn [fst snd]; try discriminate. intros _.
  destruct (count_packets_events w (arrivals_during_play w)) as [E1 E2].
  destruct (count_packets_events w (arrivals_while_parked w)) as [L1 L2].
  rewrite !logged_app, !length_app.
  split_oracles w desc; simpl in *; lia.
Qed.

Lemma delivered_packets_witness :
  (length (logged RtpBlock (fst (run Sample.unserializable Sample.args)))
   + length (logged RtpMarshalError (fst (run Sample.unserializable Sample.args)))
   = 3)%nat.
Proof.
  destruct (every_delivered_packet_is_accounted_for Sample.unserializable Sample.args)
    as [Hcount _]; [reflexivity | exact Hcount].
Defined.

(** ** The map is the header *)

(** X8.  [packetInfo] copies the whole header and nothing of the payload:
    two packets have the same map exactly when their eleven header fields
    agree, and then the callback writes the same lines for both, whatever
    their payloads, media and formats. *)
Theorem packet_map_is_the_header (w : World) (p1 p2 : Packet) :
  (packetInfo p1 = packetInfo p2 <-> same_header p1 p2)
  /\ (same_header p1 p2 -> packet_events w p1 = packet_events w p2).
Proof.
  assert (Hiff : packetInfo p1 = packetInfo p2 <-> same_header p1 p2).
  { split.
    - intros Hmap.
      assert (Hk : forall k, packetInfo p1 !! k = packetInfo p2 !! k)
        by (intros k; now rewrite Hmap).
      assert (H1 : Some (any_uint8 (Version p1)) = Some (any_uint8 (Version p2)))
        by exact (Hk "version").
      assert (H2 : Some (any_bool (Padding p1)) = Some (any_bool (Padding p2)))
        by exact (Hk "padding").
      assert (H3 : Some (any_bool (Extension_ p1)) = Some (any_bool (Extension_ p2)))
        by exact (Hk "extension").
      assert (H4 : Some (any_bool (Marker p1)) = Some (any_bool (Marker p2)))
        by exact (Hk "marker").
      assert (H5 : Some (any_uint8 (PayloadType p1)) = Some (any_uint8 (PayloadType p2)))
        by exact (Hk "payload_type").
      assert (H6 : Some (any_uint16 (SequenceNumber p1))
                   = Some (any_uint16 (SequenceNumber p2)))
        by exact (Hk "sequence_number").
      assert (H7 : Some (any_uint32 (Timestamp p1)) = Some (any_uint32 (Timestamp p2)))
        by exact (Hk "timestamp").
      assert (H8 : Some (any_uint32 (SSRC p1)) = Some (any_uint32 (SSRC p2)))
        by exact (Hk "ssrc").
      assert (H9 : Some (any_uint32s (CSRC p1)) = Some (any_uint32s (CSRC p2)))
        by exact (Hk "csrc").
      assert (H10 : Some (any_uint16 (ExtensionProfile p1))
                    = Some (any_uint16 (ExtensionProfile p2)))
        by exact (Hk "extension_profile").
      assert (H11 : Some (any_Extensions (Extensions p1))
                    = Some (any_Extensions (Extensions p2)))
        by exact (Hk "extensions").
      unfold same_header. repeat split; congruence.
    - intros (H1 & H2 & H3 & H4 & H5 & H6 & H7 & H8 & H9 & H10 & H11).
      unfold packetInfo. congruence. }
  split; [exact Hiff|].
  intros Hsame. apply Hiff in Hsame. unfold packet_events. now rewrite Hsame.
Qed.

(** ** The description is reported at most once *)

(** X9.  On every run of [main.go] the description reporter leaves at
    most one line of its own kind: a run that ends parked has either one
    description block (with its header line) or one description
    serialization error, never both and never two; a run that does not
    end parked has neither. *)
Theorem description_is_reported_at_most_once (w : World) (Args : list string) :
  (length (logged SdpBlock (fst (run w Args)))
   + length (logged SdpMarshalError (fst (run w Args))) <= 1)%nat
  /\ length (logged SdpHeader (fst (run w Args))) =
     length (logged SdpBlock (fst (run w Args)))
  /\ (snd (run w Args) = Parked <->
      (length (logged SdpBlock (fst (run w Args)))
       + length (logged SdpMarshalError (fst (run w Args))) = 1)%nat).
Proof.
  by_run_cases w Args; cbn [fst snd];
    try (split; [simpl; lia | split; [reflexivity | split; [discriminate | simpl; lia]]]).
  rewrite !logged_app, !length_app.
  rewrite !(logged_packets_events SdpBlock), !(logged_packets_events SdpMarshalError),
    !(logged_packets_events SdpHeader) by reflexivity.
  split_oracles w desc; simpl; repeat split; lia.
Qed.

(** ** Exit status and fatal lines *)

(** X10.  In [main.go] the exit status is 1 exactly when one of the four
    fatal lines (usage, parse error, connection error, DESCRIBE error) was
    written; that line is then the last event of the trace and the only
    fatal line in it.  A run ends parked exactly when the streaming notice
    was written, and it is written once. *)
Theorem exit_status_follows_the_fatal_line (w : World) (Args : list string) :
  (snd (run w Args) = Exited 1 <->
   length (filter (λ e, is_fatal e = true) (fst (run w Args))) = 1%nat)
  /\ (length (filter (λ e, is_fatal e = true) (fst (run w Args))) <= 1)%nat
  /\ (snd (run w Args) = Exited 1 ->
      exists before site text,
        fst (run w Args) = before ++ [Log site text]
        /\ fatal_site site = true
        /\ filter (λ e, is_fatal e = true) before = [])
  /\ (snd (run w Args) = Parked <->
      logged StreamingMsg (fst (run w Args)) =
        ["Streaming... Press Ctrl+C to exit." +:+ nl]).
Proof.
  by_run_cases w Args; cbn [fst snd].
  - repeat split; try discriminate; simpl; lia.
  - repeat split; try discriminate; try (simpl; lia).
    intros _. exists [], UsageMsg. eexists. now repeat split.
  - repeat split; try discriminate; try (simpl; lia).
    intros _. exists [], ParseError. eexists. now repeat split.
  - repeat split; try discriminate; try (simpl; lia).
    intros _. eexists [_; _], ConnectError. eexists. now repeat split.
  - repeat split; try discriminate; try (simpl; lia).
    intros _. eexists (opening rtspURL u), DescribeError. eexists. now repeat split.
  - assert (Hnone : filter (λ e, is_fatal e = true)
                      (opening rtspURL u ++ sdp_events w desc
                       ++ [Call (Client_SetupAll (BaseURL desc) (Medias desc))]
                       ++ setup_events w desc
                       ++ [Call (Client_OnPacketRTPAny func1); Call Client_Play]
                       ++ packets_events w (arrivals_during_play w)
                       ++ play_events w
                       ++ [Log StreamingMsg ("Streaming... Press Ctrl+C to exit." +:+ nl)]
                       ++ packets_events w (arrivals_while_parked w)) = []).
    { rewrite !filter_app, !fatal_packets_events.
      split_oracles w desc; reflexivity. }
    rewrite Hnone. split; [split; discriminate|]. split; [simpl; lia|].
    split; [discriminate|]. split; [intros _ | reflexivity].
    rewrite !logged_app, !(logged_packets_events StreamingMsg) by reflexivity.
    split_oracles w desc; reflexivity.
Qed.
